(** * Leave management: request lifecycle and balance consistency

    A shallow embedding of [app.py]: the day-count utility [calc_days], the
    handlers [register], [apply_leave], [view_leave] and [review_leave], and
    the session helper [current_user], over an explicit model of the two
    tables ([users], [leaves]) the handlers read and write; then [login],
    [logout], the two dashboards with the rows they select, and [account].

    Conventions.
    - A table is a finite map from the integer primary key [id] to its row;
      the row records hold the remaining columns.
    - A handler takes the world (database and session) and the request, and
      either returns a response together with the messages it flashed and
      the new world, or raises.  An exception escaping a handler leaves the
      committed database as it was.
    - The clock ([iso_now]), the date parser ([dateutil.parser.parse]) and
      the password hash are inputs of the model.
    - A string is the sequence of the UTF-8 bytes of the Python string.
      [strip] removes the white space of Unicode.  [lower] maps the letters
      A to Z and leaves every other byte as it is: what Python does with
      capital letters outside ASCII is not part of the model.
    - An integer bound to a query has to fit the 64 bits of an SQLite
      INTEGER, or the query raises; the ids of the rows all fit. *)

From Stdlib Require Import ZArith Lia Bool List.
From Stdlib Require Import Ascii String DecimalString.
From stdpp Require Import gmap strings list fin_maps.

Local Open Scope string_scope.
Local Open Scope Z_scope.

(** ** The Python string operations the handlers use *)

Module PyStr.

(** [str.isspace] on an ASCII character: TAB, LF, VT, FF, CR, the
    separators 0x1c to 0x1f, and the space. *)
Definition isspace (c : ascii) : bool :=
  let n := N_of_ascii c in
  ((9 <=? n) && (n <=? 13) || (28 <=? n) && (n <=? 32))%N.

(** The white space characters of two bytes: U+0085 and U+00A0. *)
Definition isspace2 (a b : ascii) : bool :=
  let x := N_of_ascii a in
  let y := N_of_ascii b in
  ((x =? 194) && ((y =? 133) || (y =? 160)))%N.

(** The white space characters of three bytes: U+1680, U+2000 to U+200A,
    U+2028, U+2029, U+202F, U+205F and U+3000. *)
Definition isspace3 (a b c : ascii) : bool :=
  let x := N_of_ascii a in
  let y := N_of_ascii b in
  let z := N_of_ascii c in
  ((x =? 225) && (y =? 154) && (z =? 128)
   || (x =? 226) && (y =? 128)
      && ((128 <=? z) && (z <=? 138) || (z =? 168) || (z =? 169) || (z =? 175))
   || (x =? 226) && (y =? 129) && (z =? 159)
   || (x =? 227) && (y =? 128) && (z =? 128))%N.

Fixpoint lstrip (s : string) : string :=
  match s with
  | String a s1 =>
      if isspace a then lstrip s1
      else match s1 with
           | String b s2 =>
               if isspace2 a b then lstrip s2
               else match s2 with
                    | String c s3 => if isspace3 a b c then lstrip s3 else s
                    | EmptyString => s
                    end
           | EmptyString => s
           end
  | EmptyString => EmptyString
  end.

(** The string is white space from end to end. *)
Fixpoint all_space (s : string) : bool :=
  match s with
  | String a s1 =>
      if isspace a then all_space s1
      else match s1 with
           | String b s2 =>
               if isspace2 a b then all_space s2
               else match s2 with
                    | String c s3 => isspace3 a b c && all_space s3
                    | EmptyString => false
                    end
           | EmptyString => false
           end
  | EmptyString => true
  end.

(** Removes the trailing white space: the bytes are kept up to the point
    from which only white space follows. *)
Fixpoint rstrip (s : string) : string :=
  match s with
  | String c s' => if all_space s then EmptyString else String c (rstrip s')
  | EmptyString => EmptyString
  end.

(** [s.strip()] *)
Definition strip (s : string) : string := rstrip (lstrip s).

Definition lower_char (c : ascii) : ascii :=
  let n := N_of_ascii c in
  if ((65 <=? n) && (n <=? 90))%N then ascii_of_N (n + 32) else c.

(** [s.lower()] on the letters of ASCII; every other byte is kept. *)
Fixpoint lower (s : string) : string :=
  match s with
  | String c s' => String (lower_char c) (lower s')
  | EmptyString => EmptyString
  end.

(** [str(n)] for an integer, as an f-string renders it. *)
Definition str (n : Z) : string := NilZero.string_of_int (Z.to_int n).

(** [not s] for a string: true exactly for the empty string. *)
Definition falsy (s : string) : bool :=
  match s with EmptyString => true | _ => false end.

End PyStr.

(** ** Calendar dates, as [datetime.date] computes with them *)

Module PyDate.

Record date := mkdate { year : Z; month : Z; day : Z }.

Definition is_leap (y : Z) : bool :=
  (y mod 4 =? 0) && (negb (y mod 100 =? 0) || (y mod 400 =? 0)).

(** Number of days before January 1st of year [y]. *)
Definition days_before_year (y : Z) : Z :=
  let p := y - 1 in p * 365 + p / 4 - p / 100 + p / 400.

Definition days_in_month (y m : Z) : Z :=
  if (m =? 2) && is_leap y then 29
  else match m with
       | 1 => 31 | 2 => 28 | 3 => 31 | 4 => 30 | 5 => 31 | 6 => 30
       | 7 => 31 | 8 => 31 | 9 => 30 | 10 => 31 | 11 => 30 | 12 => 31
       | _ => -1
       end.

(** Number of days in year [y] before the first day of month [m]. *)
Definition days_before_month (y m : Z) : Z :=
  match m with
  | 1 => 0 | 2 => 31 | 3 => 59 | 4 => 90 | 5 => 120 | 6 => 151
  | 7 => 181 | 8 => 212 | 9 => 243 | 10 => 273 | 11 => 304 | 12 => 334
  | _ => -1
  end + (if (2 <? m) && is_leap y then 1 else 0).

(** [d.toordinal()]: January 1st of year 1 is day 1. *)
Definition toordinal (d : date) : Z :=
  days_before_year (year d) + days_before_month (year d) (month d) + day d.

(** [(e - s).days] *)
Definition sub_days (e s : date) : Z := toordinal e - toordinal s.

(** The dates a [date] object can hold. *)
Definition valid (d : date) : Prop :=
  1 <= year d <= 9999 /\ 1 <= month d <= 12 /\
  1 <= day d <= days_in_month (year d) (month d).

(** Comparison of dates is that of the triples (year, month, day). *)
Definition lt (a b : date) : Prop :=
  year a < year b \/
  (year a = year b /\
   (month a < month b \/ (month a = month b /\ day a < day b))).

Definition le (a b : date) : Prop := lt a b \/ a = b.

Definition days_in_year (y : Z) : Z := if is_leap y then 366 else 365.

End PyDate.

(** ** The tables *)

(** The three values the [status] column of [leaves] takes. *)
Inductive Status := Pending | Approved | Rejected.

(** A row of [users]; the key of the table is the column [id]. *)
Record User := mkUser {
  name : string;
  email : string;
  password_hash : string;
  role : string;
  leave_balance : Z
}.

(** A row of [leaves]; the key of the table is the column [id].  The form
    values [start_date] and [end_date] are stored as they were received. *)
Record Leave := mkLeave {
  employee_id : Z;
  start_date : option string;
  end_date : option string;
  days : Z;
  leave_type : string;
  reason : string;
  status : Status;
  applied_at : string;
  reviewed_by : option Z;
  reviewed_at : option string;
  review_comment : option string
}.

Record DB := mkDB {
  users : gmap Z User;
  leaves : gmap Z Leave
}.

(** Modelled from the spec: [schema.sql] is not among the sources.  The spec
    gives a new user "a default balance (policy-defined)" and a new request
    the status Pending; the values the [role] column accepts are a field
    of the schema, and [follows_spec] below says that they are the two
    roles of the spec's data model. *)
Record Schema := mkSchema {
  default_leave_balance : Z;
  role_accepted : string -> bool
}.

(** Modelled from the spec: the values of the [role] column, "role ∈
    {employee, hr}" in the data model of the spec. *)
Definition valid_role (r : string) : Prop := r = "employee" \/ r = "hr".

(** Modelled from the spec: the constraint of the [role] column of a users
    table that holds the spec's data model. *)
Definition spec_role (r : string) : bool :=
  (r =? "employee")%string || (r =? "hr")%string.

(** Modelled from the spec: the table accepts the roles of the data model
    and no other. *)
Definition follows_spec (sch : Schema) : Prop :=
  forall r, role_accepted sch r = true <-> valid_role r.

(** Modelled from the spec: the default of the [status] column, which the
    INSERT of [apply_leave] does not set ("Persist a new LeaveRequest with
    status = Pending"). *)
Definition default_status : Status := Pending.

(** The row id an INSERT assigns: one more than the largest id in use, 1 in
    an empty table. *)
Definition next_id {A} (m : gmap Z A) : Z :=
  map_fold (fun k _ acc => Z.max k acc) 0 m + 1.

(** ** Sessions, requests and what a handler produces *)

Record Session := mkSession {
  user_id : option Z;
  session_role : option string
}.

Record World := mkWorld {
  db : DB;
  session : Session
}.

Inductive Method := GET | POST.

Record Request := mkRequest {
  method : Method;
  form : gmap string string
}.

(** [request.form.get(key, dflt)] *)
Definition form_get (rq : Request) (key dflt : string) : string :=
  default dflt (form rq !! key).

Inductive Response :=
| Redirect (endpoint : string)
| Render (template : string)
| Json (status_field message : string) (code : Z).

(** A flashed message with its category. *)
Definition Flash : Type := string * string.

Inductive Exn := TypeError | IntegrityError | OverflowError.

(** The integers [sqlite3] binds to a query: those of 64 bits.  Binding
    another one raises [OverflowError]. *)
Definition sqlite_int (n : Z) : bool :=
  (- 2 ^ 63 <=? n) && (n <? 2 ^ 63).

Inductive Outcome :=
| Returned (r : Response) (fl : list Flash) (w : World)
| Raised (e : Exn).

(** The world a handler leaves behind; an escaping exception commits
    nothing. *)
Definition world_after (w : World) (o : Outcome) : World :=
  match o with
  | Returned _ _ w' => w'
  | Raised _ => w
  end.

Definition access_denied (w : World) : Outcome :=
  Returned (Redirect "index") [("Access denied.", "danger")] w.

(** ** Auth helpers *)

(** [current_user]: the id in the session with its row; [None] without a
    (truthy) id in the session, or when no row has that id. *)
Definition current_user (w : World) : option (Z * User) :=
  match user_id (session w) with
  | None => None
  | Some uid =>
      if uid =? 0 then None
      else match users (db w) !! uid with
           | Some u => Some (uid, u)
           | None => None
           end
  end.

Definition login_user (uid : Z) (u : User) : Session :=
  {| user_id := Some uid; session_role := Some (role u) |}.

Definition logout_user : Session :=
  {| user_id := None; session_role := None |}.

(** ** Row updates *)

(** [UPDATE users SET leave_balance = leave_balance - ?] on one row. *)
Definition debit (d : Z) (u : User) : User :=
  {| name := name u; email := email u; password_hash := password_hash u;
     role := role u; leave_balance := leave_balance u - d |}.

(** [UPDATE leaves SET status=?, reviewed_by=?, reviewed_at=?,
    review_comment=?] on one row. *)
Definition stamp (st : Status) (by_id : Z) (at_time comment : string)
    (l : Leave) : Leave :=
  {| employee_id := employee_id l; start_date := start_date l;
     end_date := end_date l; days := days l; leave_type := leave_type l;
     reason := reason l; status := st; applied_at := applied_at l;
     reviewed_by := Some by_id; reviewed_at := Some at_time;
     review_comment := Some comment |}.

(** [SELECT * FROM users WHERE email = ?] finds a row. *)
Definition email_registered (m : gmap Z User) (e : string) : bool :=
  bool_decide (map_Exists (fun _ u => email u = e) m).

(** ** The utility and the handlers *)

Section App.

(** [dateutil.parser.parse(s).date()]; [None] when it raises. *)
Variable parse_date : string -> option PyDate.date.

(** [werkzeug.security.generate_password_hash] *)
Variable generate_password_hash : string -> string.

Variable schema : Schema.

(** [calc_days]: inclusive days, at least 0; [None] when a parse raises
    (also on a missing form value, which is not a string). *)
Definition calc_days (start_iso end_iso : option string) : option Z :=
  match start_iso with
  | None => None
  | Some s_txt =>
      match parse_date s_txt with
      | None => None
      | Some s =>
          match end_iso with
          | None => None
          | Some e_txt =>
              match parse_date e_txt with
              | None => None
              | Some e =>
                  let delta := PyDate.sub_days e s + 1 in
                  Some (Z.max 0 delta)
              end
          end
      end
  end.

(** [register] *)
Definition register (w : World) (rq : Request) : Outcome :=
  match method rq with
  | POST =>
      let name_ := PyStr.strip (form_get rq "name" "") in
      let email_ := PyStr.lower (PyStr.strip (form_get rq "email" "")) in
      let password := form_get rq "password" "" in
      let role_ := form_get rq "role" "employee" in
      if PyStr.falsy name_ || PyStr.falsy email_ || PyStr.falsy password then
        Returned (Redirect "register")
                 [("Fill all required fields.", "warning")] w
      else if email_registered (users (db w)) email_ then
        Returned (Redirect "register")
                 [("Email already registered.", "danger")] w
      else
        let pw_hash := generate_password_hash password in
        if role_accepted schema role_ then
          let uid := next_id (users (db w)) in
          let u := {| name := name_; email := email_;
                      password_hash := pw_hash; role := role_;
                      leave_balance := default_leave_balance schema |} in
          Returned (Redirect "index")
                   [("Registered and logged in.", "success")]
                   {| db := {| users := <[uid := u]> (users (db w));
                               leaves := leaves (db w) |};
                      session := login_user uid u |}
        else Raised IntegrityError
  | GET => Returned (Render "register.html") [] w
  end.

(** [apply_leave]; [now] is the value of [iso_now()]. *)
Definition apply_leave (now : string) (w : World) (rq : Request) : Outcome :=
  match current_user w with
  | None => access_denied w
  | Some (uid, user) =>
      if negb (role user =? "employee")%string then access_denied w
      else
        match method rq with
        | POST =>
            let start := form rq !! "start_date" in
            let end_ := form rq !! "end_date" in
            let leave_type_ := form_get rq "leave_type" "Vacation" in
            let reason_ := PyStr.strip (form_get rq "reason" "") in
            match calc_days start end_ with
            | None =>
                Returned (Redirect "apply_leave")
                  [("Invalid date format. Use YYYY-MM-DD.", "danger")] w
            | Some days_ =>
                match users (db w) !! uid with
                | None => Raised TypeError
                | Some user_db =>
                    if days_ >? leave_balance user_db then
                      Returned (Redirect "apply_leave")
                        [("Insufficient leave balance. You have "
                            ++ PyStr.str (leave_balance user_db)
                            ++ " days.", "danger")] w
                    else
                      let l := {| employee_id := uid; start_date := start;
                                  end_date := end_; days := days_;
                                  leave_type := leave_type_;
                                  reason := reason_;
                                  status := default_status;
                                  applied_at := now;
                                  reviewed_by := None; reviewed_at := None;
                                  review_comment := None |} in
                      Returned (Redirect "employee_dashboard")
                        [("Leave application submitted.", "success")]
                        {| db := {| users := users (db w);
                                    leaves := <[next_id (leaves (db w)) := l]>
                                                (leaves (db w)) |};
                           session := session w |}
                end
            end
        | GET => Returned (Render "apply_leave.html") [] w
        end
  end.

(** The row [view_leave] selects: the leave joined with its employee. *)
Definition leave_with_employee (d : DB) (leave_id : Z) : option (Leave * User) :=
  match leaves d !! leave_id with
  | None => None
  | Some l =>
      match users d !! employee_id l with
      | None => None
      | Some u => Some (l, u)
      end
  end.

(** [view_leave]: the role of the current user is read before anything
    tells whether there is one.  An id beyond 64 bits is the id of no row,
    and the query that binds it raises. *)
Definition view_leave (w : World) (leave_id : Z) : Outcome :=
  let user := current_user w in
  match leave_with_employee (db w) leave_id with
  | None =>
      if sqlite_int leave_id then
        Returned (Redirect "index") [("Leave not found.", "danger")] w
      else Raised OverflowError
  | Some (l, _) =>
      match user with
      | None => Raised TypeError
      | Some (uid, u) =>
          if negb (role u =? "hr")%string && negb (uid =? employee_id l)
          then access_denied w
          else Returned (Render "view_leave.html") [] w
      end
  end.

(** [review_leave]; [now] is the value of [iso_now()].  The row [emp] is
    the one whose id is [employee_id l], so [emp['id']] is that id.  An id
    beyond 64 bits is the id of no row, and the query that binds it
    raises. *)
Definition review_leave (now : string) (w : World) (rq : Request)
    (leave_id : Z) : Outcome :=
  match current_user w with
  | None => Returned (Json "error" "Access denied" 403) [] w
  | Some (uid, user) =>
      if negb (role user =? "hr")%string then
        Returned (Json "error" "Access denied" 403) [] w
      else
        let action := form rq !! "action" in
        let comment := PyStr.strip (form_get rq "comment" "") in
        match leaves (db w) !! leave_id with
        | None =>
            if sqlite_int leave_id then
              Returned (Redirect "hr_dashboard")
                       [("Leave not found.", "danger")] w
            else Raised OverflowError
        | Some l =>
            if bool_decide (action = Some "approve") then
              match users (db w) !! employee_id l with
              | None => Raised TypeError
              | Some emp =>
                  if leave_balance emp <? days l then
                    Returned (Redirect "hr_dashboard")
                      [("Employee does not have enough balance.", "danger")] w
                  else
                    Returned (Redirect "hr_dashboard")
                      [("Leave approved and balance updated.", "success")]
                      {| db := {| users := alter (debit (days l))
                                             (employee_id l) (users (db w));
                                  leaves := alter (stamp Approved uid now comment)
                                              leave_id (leaves (db w)) |};
                         session := session w |}
              end
            else if bool_decide (action = Some "reject") then
              Returned (Redirect "hr_dashboard")
                [("Leave rejected.", "info")]
                {| db := {| users := users (db w);
                            leaves := alter (stamp Rejected uid now comment)
                                        leave_id (leaves (db w)) |};
                   session := session w |}
            else
              Returned (Redirect "hr_dashboard")
                       [("Unknown action.", "warning")] w
        end
  end.

End App.

(** ** The canonical date format

    The parser the examples run with: it accepts exactly the canonical
    YYYY-MM-DD form of a valid date, on which [dateutil] agrees with it. *)

Module Iso.

Definition digit (c : ascii) : option Z :=
  let n := N_of_ascii c in
  if ((48 <=? n) && (n <=? 57))%N then Some (Z.of_N n - 48) else None.

Fixpoint number (acc : Z) (cs : list ascii) : option Z :=
  match cs with
  | [] => Some acc
  | c :: cs' =>
      match digit c with
      | Some d => number (10 * acc + d) cs'
      | None => None
      end
  end.

Definition validb (d : PyDate.date) : bool :=
  (1 <=? PyDate.year d) && (PyDate.year d <=? 9999) &&
  (1 <=? PyDate.month d) && (PyDate.month d <=? 12) &&
  (1 <=? PyDate.day d) &&
  (PyDate.day d <=? PyDate.days_in_month (PyDate.year d) (PyDate.month d)).

Definition parse (s : string) : option PyDate.date :=
  match list_ascii_of_string s with
  | [y1; y2; y3; y4; "-"%char; m1; m2; "-"%char; d1; d2] =>
      match number 0 [y1; y2; y3; y4], number 0 [m1; m2], number 0 [d1; d2] with
      | Some y, Some m, Some d =>
          let r := PyDate.mkdate y m d in
          if validb r then Some r else None
      | _, _, _ => None
      end
  | _ => None
  end.

End Iso.

(** ** Example data *)

Module Ex.

(** The users table of the spec's data model, granting 20 days. *)
Definition schema : Schema :=
  {| default_leave_balance := 20; role_accepted := spec_role |}.

Definition hash (p : string) : string := "hash:" ++ p.

Definition hr_user : User :=
  {| name := "Hana"; email := "hana@example.org"; password_hash := "h1";
     role := "hr"; leave_balance := 20 |}.

Definition employee (balance : Z) : User :=
  {| name := "Emil"; email := "emil@example.org"; password_hash := "h2";
     role := "employee"; leave_balance := balance |}.

(** User 1 is the reviewer, user 2 the employee. *)
Definition people (balance : Z) : gmap Z User :=
  <[2 := employee balance]> (<[1 := hr_user]> ∅).

Definition logged_in (uid : Z) (r : string) : Session :=
  {| user_id := Some uid; session_role := Some r |}.

Definition anonymous : Session := logout_user.

Definition request_of (st : Status) (d : Z) : Leave :=
  {| employee_id := 2; start_date := Some "2024-03-01";
     end_date := Some "2024-03-05"; days := d; leave_type := "Vacation";
     reason := ""; status := st; applied_at := "2024-02-20T09:00:00";
     reviewed_by := None; reviewed_at := None; review_comment := None |}.

(** The employee has [balance] days and one request of [d] days in state
    [st]; [s] is the session of the caller. *)
Definition world (s : Session) (balance : Z) (st : Status) (d : Z) : World :=
  {| db := {| users := people balance;
              leaves := <[1 := request_of st d]> ∅ |};
     session := s |}.

(** The same people and no request yet. *)
Definition fresh_world (s : Session) (balance : Z) : World :=
  {| db := {| users := people balance; leaves := ∅ |}; session := s |}.

Definition post (fields : list (string * string)) : Request :=
  {| method := POST; form := list_to_map fields |}.

Definition approve : Request := post [("action", "approve"); ("comment", " ok ")].
Definition reject : Request := post [("action", "reject"); ("comment", "no")].
Definition approve_again : Request :=
post [("action", "approve"); ("comment", "again")].

(** The world with a Pending request of 5 days and a balance of 10, after
  the reviewer approved it at [t1]. *)
Definition approved_once : World :=
world_after (world (logged_in 1 "hr") 10 Pending 5)
  (review_leave "2024-02-21T10:00:00"
     (world (logged_in 1 "hr") 10 Pending 5) approve 1).

Definition leave_form (s e : string) : Request :=
  post [("start_date", s); ("end_date", e)].

End Ex.


(** ** Sequences of workflow operations

    One operation is one request served to the end; each request comes
    with the session of its client. *)

Inductive Op :=
| Submit (s : Session) (now : string) (rq : Request)
| Review (s : Session) (now : string) (rq : Request) (leave_id : Z)
| View (s : Session) (leave_id : Z).

Section Runs.

Variable parse_date : string -> option PyDate.date.

Definition serve (op : Op) (d : DB) : Outcome :=
  match op with
  | Submit s now rq => apply_leave parse_date now (mkWorld d s) rq
  | Review s now rq leave_id => review_leave now (mkWorld d s) rq leave_id
  | View s leave_id => view_leave (mkWorld d s) leave_id
  end.

(** The database after the operation. *)
Definition step (op : Op) (d : DB) : DB :=
  match op with
  | Submit s _ _ | Review s _ _ _ | View s _ =>
      db (world_after (mkWorld d s) (serve op d))
  end.

Fixpoint run_all (ops : list Op) (d : DB) : DB :=
  match ops with
  | [] => d
  | op :: ops' => run_all ops' (step op d)
  end.

End Runs.

(** ** Invariants of the database *)

Definition balances_nonneg (d : DB) : Prop :=
  map_Forall (fun _ u => 0 <= leave_balance u) (users d).

Definition days_nonneg (d : DB) : Prop :=
  map_Forall (fun _ l => 0 <= days l) (leaves d).

(** Every request belongs to a user of the table. *)
Definition employees_exist (d : DB) : Prop :=
  map_Forall (fun _ l => is_Some (users d !! employee_id l)) (leaves d).

Definition roles_accepted (sch : Schema) (d : DB) : Prop :=
  map_Forall (fun _ u => role_accepted sch (role u) = true) (users d).

(** Every stored user has one of the two roles. *)
Definition roles_valid (d : DB) : Prop :=
  map_Forall (fun _ u => valid_role (role u)) (users d).

(** ** Everything that writes: registrations and workflow operations *)

Inductive Action :=
| Register (s : Session) (rq : Request)
| Workflow (op : Op).

Section System.

Variable parse_date : string -> option PyDate.date.
Variable generate_password_hash : string -> string.
Variable schema : Schema.

(** The database after the action. *)
Definition act (a : Action) (d : DB) : DB :=
  match a with
  | Register s rq =>
      db (world_after (mkWorld d s)
            (register generate_password_hash schema (mkWorld d s) rq))
  | Workflow op => step parse_date op d
  end.

Fixpoint act_all (actions : list Action) (d : DB) : DB :=
  match actions with
  | [] => d
  | a :: rest => act_all rest (act a d)
  end.

End System.

(** ** Reading outcomes *)

(** The review was carried out as an approval. *)
Definition is_approval (o : Outcome) : Prop :=
  exists w', o = Returned (Redirect "hr_dashboard")
                   [("Leave approved and balance updated.", "success")] w'.

(** The review was carried out as a rejection. *)
Definition is_rejection (o : Outcome) : Prop :=
  exists w', o = Returned (Redirect "hr_dashboard")
                   [("Leave rejected.", "info")] w'.

(** The caller of the request in world [w] is a logged-in user [uid] whose
    role is [r]. *)
Definition acting_as (w : World) (uid : Z) (r : string) : Prop :=
  exists u, current_user w = Some (uid, u) /\ role u = r.

(** ** Example runs *)

Module Scenario.

Definition hr : Session := Ex.logged_in 1 "hr".
Definition emp : Session := Ex.logged_in 2 "employee".

(** The starting database: the reviewer, the employee with 10 days, no
    request. *)
Definition start : DB := db (Ex.fresh_world Ex.anonymous 10).

(** The employee asks for five days; the reviewer approves, approves once
    more, and then rejects the same request. *)
Definition ops : list Op :=
  [ Submit emp "2024-02-20T09:00:00" (Ex.leave_form "2024-03-01" "2024-03-05");
    Review hr "2024-02-21T10:00:00" Ex.approve 1;
    Review hr "2024-02-22T08:00:00" Ex.approve_again 1;
    Review hr "2024-02-23T08:00:00" Ex.reject 1 ].

(** The database with the Pending request of 5 days and a balance of 10. *)
Definition pending : DB := db (Ex.world Ex.anonymous 10 Pending 5).

(** A registration that asks for a role of its own. *)
Definition admin_form : Request :=
  Ex.post [("name", " Ada "); ("email", " Ada@Example.org");
           ("password", "pw"); ("role", "admin")].

End Scenario.

(** ** Login, logout and the pages *)

(** Among [rows], the row of least id whose email is [e]. *)
Fixpoint least_with_email (e : string) (rows : list (Z * User))
    : option (Z * User) :=
  match rows with
  | [] => None
  | (k, u) :: rest =>
      let r := least_with_email e rest in
      if (email u =? e)%string then
        match r with
        | Some (k', _) => if k' <? k then r else Some (k, u)
        | None => Some (k, u)
        end
      else r
  end.

(** [SELECT * FROM users WHERE email = ?] with [one=True]: rows come in
    the order of their id, and the first one is taken. *)
Definition user_by_email (m : gmap Z User) (e : string) : option (Z * User) :=
  least_with_email e (map_to_list m).

Section Auth.

(** [werkzeug.security.check_password_hash], hash first. *)
Variable check_password_hash : string -> string -> bool.

Definition invalid_credentials (w : World) : Outcome :=
  Returned (Redirect "login") [("Invalid credentials.", "danger")] w.

(** [login] *)
Definition login (w : World) (rq : Request) : Outcome :=
  match method rq with
  | POST =>
      let email_ := PyStr.lower (PyStr.strip (form_get rq "email" "")) in
      let password := form_get rq "password" "" in
      match user_by_email (users (db w)) email_ with
      | Some (uid, u) =>
          if check_password_hash (password_hash u) password then
            Returned (Redirect "index") [("Logged in.", "success")]
                     {| db := db w; session := login_user uid u |}
          else invalid_credentials w
      | None => invalid_credentials w
      end
  | GET => Returned (Render "login.html") [] w
  end.

End Auth.

(** [logout] *)
Definition logout (w : World) : Outcome :=
  Returned (Redirect "index") [("Logged out.", "info")]
           {| db := db w; session := logout_user |}.

(** [index] *)
Definition index (w : World) : Outcome :=
  Returned (Render "index.html") [] w.

(** The rows [employee_dashboard] selects, keyed by id: the requests of
    one employee.  Their order on the page is not part of the model. *)
Definition employee_leaves (d : DB) (uid : Z) : gmap Z Leave :=
  filter (fun kl => employee_id kl.2 = uid) (leaves d).

(** [employee_dashboard] *)
Definition employee_dashboard (w : World) : Outcome :=
  match current_user w with
  | None => access_denied w
  | Some (uid, user) =>
      if negb (role user =? "employee")%string then access_denied w
      else Returned (Render "employee_dashboard.html") [] w
  end.

(** The rows of [pending] in [hr_dashboard], keyed by id: the Pending
    requests joined with their employee.  Their order on the page is not
    part of the model. *)
Definition pending_leaves (d : DB) : gmap Z (Leave * User) :=
  omap (fun l => match status l with
                 | Pending =>
                     match users d !! employee_id l with
                     | Some u => Some (l, u)
                     | None => None
                     end
                 | _ => None
                 end) (leaves d).

(** [hr_dashboard] *)
Definition hr_dashboard (w : World) : Outcome :=
  match current_user w with
  | None => access_denied w
  | Some (uid, user) =>
      if negb (role user =? "hr")%string then access_denied w
      else Returned (Render "hr_dashboard.html") [] w
  end.

(** [account] *)
Definition account (w : World) : Outcome :=
  match current_user w with
  | None => Returned (Redirect "login") [("Please login.", "warning")] w
  | Some _ => Returned (Render "account.html") [] w
  end.

(** ** Further invariants *)

(** No two rows of [users] share an email. *)
Definition emails_unique (d : DB) : Prop :=
  forall i j u v,
    users d !! i = Some u -> users d !! j = Some v ->
    email u = email v -> i = j.

(** Every stored email is in the form [login] looks it up in. *)
Definition emails_lowercase (d : DB) : Prop :=
  map_Forall (fun _ u => PyStr.lower (email u) = email u) (users d).

(** The columns of a request no handler writes after the INSERT. *)
Definition same_request (l l' : Leave) : Prop :=
  employee_id l' = employee_id l /\ start_date l' = start_date l /\
  end_date l' = end_date l /\ days l' = days l /\
  leave_type l' = leave_type l /\ reason l' = reason l /\
  applied_at l' = applied_at l.

(** The columns of a user no workflow operation writes. *)
Definition same_person (u u' : User) : Prop :=
  name u' = name u /\ email u' = email u /\
  password_hash u' = password_hash u /\ role u' = role u.

(** The handler answered with the access-denied redirect or the 403 and
    left the world alone. *)
Definition refused (w : World) (o : Outcome) : Prop :=
  o = access_denied w \/ o = Returned (Json "error" "Access denied" 403) [] w.

Module Ex2.

(** A password check that goes with [Ex.hash]. *)
Definition check (h p : string) : bool := (h =? Ex.hash p)%string.

(** A registration as reviewer. *)
Definition hr_form : Request :=
  Ex.post [("name", "Rosa"); ("email", "Rosa@Example.org ");
           ("password", "s3cret"); ("role", "hr")].

(** The same credentials, to log in with. *)
Definition hr_login : Request :=
  Ex.post [("email", " rosa@example.ORG"); ("password", "s3cret")].

(** The world once Rosa has registered, in the session that opened. *)
Definition rosa_world : World :=
  world_after (Ex.fresh_world Ex.anonymous 10)
    (register Ex.hash Ex.schema (Ex.fresh_world Ex.anonymous 10) hr_form).

(** Rosa's row. *)
Definition rosa : User :=
  {| name := "Rosa"; email := "rosa@example.org";
     password_hash := "hash:s3cret"; role := "hr"; leave_balance := 20 |}.

End Ex2.

(** ** The model on known values *)

Example strip_trims_both_ends : PyStr.strip "   ok then  " = "ok then".
Proof. reflexivity. Qed.

Example strip_of_blanks : PyStr.strip "    " = "".
Proof. reflexivity. Qed.

(** U+00A0 and U+3000 around a name are stripped; U+00E9 and U+2026,
    which are no white space, are kept. *)
Example strip_unicode_space :
  PyStr.strip (String (ascii_of_N 194) (String (ascii_of_N 160)
                 ("Ada" ++ String (ascii_of_N 227) (String (ascii_of_N 128)
                             (String (ascii_of_N 128) "")))))
  = "Ada" /\
  PyStr.strip (String (ascii_of_N 194) (String (ascii_of_N 160) "")) = "" /\
  PyStr.strip (String (ascii_of_N 195) (String (ascii_of_N 169) " "))
  = String (ascii_of_N 195) (String (ascii_of_N 169) "") /\
  PyStr.strip (" " ++ String (ascii_of_N 226) (String (ascii_of_N 128)
                        (String (ascii_of_N 166) "")))
  = String (ascii_of_N 226) (String (ascii_of_N 128)
      (String (ascii_of_N 166) "")).
Proof. repeat split. Qed.

Example lower_email : PyStr.lower "Ada@Example.ORG" = "ada@example.org".
Proof. reflexivity. Qed.

Example str_of_integers :
  PyStr.str 0 = "0" /\ PyStr.str 120 = "120" /\ PyStr.str (-3) = "-3".
Proof. repeat split. Qed.

(** [date(1970, 1, 1).toordinal()] and [date(2024, 1, 1).toordinal()] *)
Example toordinal_known :
  PyDate.toordinal (PyDate.mkdate 1970 1 1) = 719163 /\
  PyDate.toordinal (PyDate.mkdate 2024 1 1) = 738886 /\
  PyDate.toordinal (PyDate.mkdate 1 1 1) = 1.
Proof. repeat split. Qed.

Example iso_rejects_impossible_day : Iso.parse "2023-02-29" = None.
Proof. reflexivity. Qed.

Example next_id_of_tables :
  next_id (∅ : gmap Z User) = 1 /\ next_id (Ex.people 10) = 3.
Proof. split; vm_compute; reflexivity. Qed.

(** The example run: five days are asked for and stored Pending with the
    balance still 10; after the two approvals and the rejection the request
    is Rejected and the balance is 0. *)
Example scenario_run :
  (days <$> leaves (step Iso.parse (Submit Scenario.emp "2024-02-20T09:00:00"
                      (Ex.leave_form "2024-03-01" "2024-03-05"))
                      Scenario.start) !! 1) = Some 5 /\
  (status <$> leaves (run_all Iso.parse Scenario.ops Scenario.start) !! 1)
  = Some Rejected /\
  (leave_balance <$> users (run_all Iso.parse Scenario.ops Scenario.start) !! 2)
  = Some 0.
Proof. repeat split; vm_compute; reflexivity. Qed.

(** ** Facts about dates *)

Module PyDateFacts.
Import PyDate.

Lemma days_before_year_succ y :
  days_before_year (y + 1) = days_before_year y + days_in_year y.
Proof.
  unfold days_before_year, days_in_year, is_leap.
  replace (y + 1 - 1) with y by lia.
  destruct (y mod 4 =? 0) eqn:E4; destruct (y mod 100 =? 0) eqn:E100;
    destruct (y mod 400 =? 0) eqn:E400; cbn [andb orb negb];
    rewrite ?Z.eqb_eq, ?Z.eqb_neq in *;
    Z.to_euclidean_division_equations; lia.
Qed.

Lemma days_in_year_pos y : 365 <= days_in_year y.
Proof. unfold days_in_year. destruct (is_leap y); lia. Qed.

Lemma days_before_year_le a x :
  a <= x -> days_before_year a <= days_before_year x.
Proof.
  intros Ha. pattern x. apply (Zlt_lower_bound_ind _ a); [|exact Ha].
  intros z IH Hz. destruct (Z.eq_dec z a) as [->|Hne]; [lia|].
  assert (H1 : a <= z - 1 < z) by lia.
  specialize (IH (z - 1) H1).
  assert (E : days_before_year z
              = days_before_year (z - 1) + days_in_year (z - 1)).
  { rewrite <- days_before_year_succ. f_equal. lia. }
  pose proof (days_in_year_pos (z - 1)). lia.
Qed.

Lemma days_before_year_mono y1 y2 :
  y1 < y2 -> days_before_year y1 + days_in_year y1 <= days_before_year y2.
Proof.
  intros H. rewrite <- days_before_year_succ.
  apply days_before_year_le. lia.
Qed.

Lemma within_year d :
  valid d ->
  1 <= days_before_month (year d) (month d) + day d <= days_in_year (year d).
Proof.
  destruct d as [y m dd]. unfold valid, days_before_month, days_in_month,
    days_in_year. cbn [year month day]. intros (_ & Hm & Hd).
  assert (Hc : m = 1 \/ m = 2 \/ m = 3 \/ m = 4 \/ m = 5 \/ m = 6 \/ m = 7 \/
               m = 8 \/ m = 9 \/ m = 10 \/ m = 11 \/ m = 12) by lia.
  destruct (is_leap y);
    repeat (destruct Hc as [-> | Hc]; [cbn in *; lia|]); subst; cbn in *; lia.
Qed.

Lemma month_order y m1 d1 m2 d2 :
  valid (mkdate y m1 d1) -> valid (mkdate y m2 d2) -> m1 < m2 ->
  days_before_month y m1 + d1 < days_before_month y m2 + d2.
Proof.
  unfold valid, days_before_month, days_in_month. cbn [year month day].
  intros (_ & Hm1 & Hd1) (_ & Hm2 & Hd2) Hlt.
  assert (Hc1 : m1 = 1 \/ m1 = 2 \/ m1 = 3 \/ m1 = 4 \/ m1 = 5 \/ m1 = 6 \/
                m1 = 7 \/ m1 = 8 \/ m1 = 9 \/ m1 = 10 \/ m1 = 11) by lia.
  assert (Hc2 : m2 = 2 \/ m2 = 3 \/ m2 = 4 \/ m2 = 5 \/ m2 = 6 \/ m2 = 7 \/
                m2 = 8 \/ m2 = 9 \/ m2 = 10 \/ m2 = 11 \/ m2 = 12) by lia.
  destruct (is_leap y);
    repeat (destruct Hc1 as [-> | Hc1]; [|]); subst;
    repeat (destruct Hc2 as [-> | Hc2]; [|]); subst; cbn in *; lia.
Qed.

(** The ordinal is strictly increasing along the calendar order. *)
Lemma toordinal_lt a b :
  valid a -> valid b -> lt a b -> toordinal a < toordinal b.
Proof.
  intros Ha Hb Hlt. unfold toordinal.
  destruct Hlt as [Hy | (Hy & [Hm | (Hm & Hd)])].
  - pose proof (days_before_year_mono _ _ Hy).
    pose proof (within_year a Ha). pose proof (within_year b Hb). lia.
  - destruct a as [ya ma da], b as [yb mb db_]. cbn [year month day] in *.
    subst yb. pose proof (month_order ya ma da mb db_ Ha Hb Hm). lia.
  - rewrite Hy, Hm. lia.
Qed.

Lemma toordinal_le a b :
  valid a -> valid b -> le a b -> toordinal a <= toordinal b.
Proof.
  intros Ha Hb [Hlt | ->]; [|lia].
  pose proof (toordinal_lt a b Ha Hb Hlt). lia.
Qed.

End PyDateFacts.

(** ** Facts about the tables and the session *)

Lemma next_id_bound {A} (m : gmap Z A) k :
  is_Some (m !! k) -> k < next_id m.
Proof.
  unfold next_id. revert k.
  apply (map_fold_weak_ind
           (fun r (m : gmap Z A) => forall k, is_Some (m !! k) -> k < r + 1)).
  - intros k [x Hx]. rewrite lookup_empty in Hx. discriminate.
  - intros i x m' r Hi IH k Hk.
    destruct (decide (i = k)) as [->|Hne]; [lia|].
    rewrite lookup_insert_ne in Hk by done. specialize (IH k Hk). lia.
Qed.

(** An INSERT never lands on a row that exists. *)
Lemma next_id_fresh {A} (m : gmap Z A) : m !! next_id m = None.
Proof.
  destruct (m !! next_id m) eqn:E; [|done].
  assert (H : is_Some (m !! next_id m)) by (rewrite E; eauto).
  apply next_id_bound in H. lia.
Qed.

(** The row [current_user] returns is the one a new SELECT by id finds. *)
Lemma current_user_lookup w uid u :
  current_user w = Some (uid, u) -> users (db w) !! uid = Some u.
Proof.
  unfold current_user. destruct (user_id (session w)) as [i|]; [|done].
  destruct (i =? 0); [done|].
  destruct (users (db w) !! i) eqn:E; [|done].
  intros [= <- <-]. exact E.
Qed.

Lemma current_user_anonymous w :
  user_id (session w) = None -> current_user w = None.
Proof. unfold current_user. intros ->. done. Qed.

Lemma acting_as_lookup w uid r :
  acting_as w uid r ->
  exists u, current_user w = Some (uid, u) /\ users (db w) !! uid = Some u /\
            role u = r.
Proof.
  intros (u & Hc & Hr). exists u. eauto using current_user_lookup.
Qed.

Lemma calc_days_nonneg parse s e n :
  calc_days parse s e = Some n -> 0 <= n.
Proof.
  unfold calc_days. destruct s as [s|]; [|done].
  destruct (parse s); [|done]. destruct e as [e|]; [|done].
  destruct (parse e); [|done]. intros [= <-]. lia.
Qed.

(** ** The day count *)

(** C7. For two valid dates with start <= end, [calc_days] returns the
    number of whole days from start to end plus one (so at least 1); with
    end < start it returns 0, never a negative number. *)
Theorem calc_days_inclusive parse s_txt e_txt s e :
  parse s_txt = Some s -> parse e_txt = Some e ->
  PyDate.valid s -> PyDate.valid e ->
  (PyDate.le s e ->
     calc_days parse (Some s_txt) (Some e_txt) = Some (PyDate.sub_days e s + 1)
     /\ 1 <= PyDate.sub_days e s + 1) /\
  (PyDate.lt e s -> calc_days parse (Some s_txt) (Some e_txt) = Some 0).
Proof.
  intros Hs He Vs Ve. unfold calc_days. rewrite Hs, He. split.
  - intros Hle. pose proof (PyDateFacts.toordinal_le s e Vs Ve Hle) as Ho.
    unfold PyDate.sub_days. split; [f_equal|]; lia.
  - intros Hlt. pose proof (PyDateFacts.toordinal_lt e s Ve Vs Hlt) as Ho.
    unfold PyDate.sub_days. f_equal. lia.
Qed.

Lemma calc_days_inclusive_witness :
  calc_days Iso.parse (Some "2024-01-01") (Some "2024-01-03") = Some 3 /\
  calc_days Iso.parse (Some "2024-03-05") (Some "2024-03-01") = Some 0.
Proof.
  pose (a := PyDate.mkdate 2024 1 1). pose (b := PyDate.mkdate 2024 1 3).
  pose (c := PyDate.mkdate 2024 3 5). pose (d := PyDate.mkdate 2024 3 1).
  assert (Va : PyDate.valid a) by (unfold PyDate.valid; cbn; lia).
  assert (Vb : PyDate.valid b) by (unfold PyDate.valid; cbn; lia).
  assert (Vc : PyDate.valid c) by (unfold PyDate.valid; cbn; lia).
  assert (Vd : PyDate.valid d) by (unfold PyDate.valid; cbn; lia).
  split.
  - refine (proj1 (proj1 (calc_days_inclusive Iso.parse "2024-01-01"
                            "2024-01-03" a b eq_refl eq_refl Va Vb) _)).
    left. unfold PyDate.lt. cbn. lia.
  - refine (proj2 (calc_days_inclusive Iso.parse "2024-03-05"
                     "2024-03-01" c d eq_refl eq_refl Vc Vd) _).
    unfold PyDate.lt. cbn. lia.
Defined.

(** ** Review *)

(** Rewrites with what is known about the caller of a handler. *)
Ltac caller H :=
  let u := fresh "u" in
  let Hc := fresh "Hc" in
  let Hl := fresh "Hl" in
  let Hr := fresh "Hr" in
  apply acting_as_lookup in H; destruct H as (u & Hc & Hl & Hr);
  rewrite Hc; cbn beta iota; rewrite Hr; cbn [String.eqb Ascii.eqb Bool.eqb negb].

(** What [review_leave] does for a reviewer on an existing request; the
    request's status is not among the things it reads. *)

Lemma review_approve_ok now w rq leave_id uid l emp :
  acting_as w uid "hr" ->
  form rq !! "action" = Some "approve" ->
  leaves (db w) !! leave_id = Some l ->
  users (db w) !! employee_id l = Some emp ->
  days l <= leave_balance emp ->
  review_leave now w rq leave_id
  = Returned (Redirect "hr_dashboard")
      [("Leave approved and balance updated.", "success")]
      {| db := {| users := <[employee_id l := debit (days l) emp]> (users (db w));
                  leaves := <[leave_id := stamp Approved uid now
                                (PyStr.strip (form_get rq "comment" "")) l]>
                              (leaves (db w)) |};
         session := session w |}.
Proof.
  intros Hhr Ha Hl He Hb. unfold review_leave.
  caller Hhr. rewrite Hl, Ha, He. cbn.
  destruct (Z.ltb_spec (leave_balance emp) (days l)); [lia|].
  do 3 f_equal. f_equal.
  - apply map_eq. intros i. destruct (decide (employee_id l = i)) as [<-|Hne].
    + rewrite lookup_alter_eq, lookup_insert_eq, He. reflexivity.
    + rewrite lookup_alter_ne, lookup_insert_ne by done. reflexivity.
  - apply map_eq. intros i. destruct (decide (leave_id = i)) as [<-|Hne].
    + rewrite lookup_alter_eq, lookup_insert_eq, Hl. reflexivity.
    + rewrite lookup_alter_ne, lookup_insert_ne by done. reflexivity.
Qed.

Lemma review_approve_short now w rq leave_id uid l emp :
  acting_as w uid "hr" ->
  form rq !! "action" = Some "approve" ->
  leaves (db w) !! leave_id = Some l ->
  users (db w) !! employee_id l = Some emp ->
  leave_balance emp < days l ->
  review_leave now w rq leave_id
  = Returned (Redirect "hr_dashboard")
      [("Employee does not have enough balance.", "danger")] w.
Proof.
  intros Hhr Ha Hl He Hb. unfold review_leave.
  caller Hhr. rewrite Hl, Ha, He. cbn.
  destruct (Z.ltb_spec (leave_balance emp) (days l)); [|lia]. reflexivity.
Qed.

Lemma review_reject_ok now w rq leave_id uid l :
  acting_as w uid "hr" ->
  form rq !! "action" = Some "reject" ->
  leaves (db w) !! leave_id = Some l ->
  review_leave now w rq leave_id
  = Returned (Redirect "hr_dashboard") [("Leave rejected.", "info")]
      {| db := {| users := users (db w);
                  leaves := <[leave_id := stamp Rejected uid now
                                (PyStr.strip (form_get rq "comment" "")) l]>
                              (leaves (db w)) |};
         session := session w |}.
Proof.
  intros Hhr Ha Hl. unfold review_leave.
  caller Hhr. rewrite Hl, Ha. cbn.
  do 3 f_equal. f_equal.
  apply map_eq. intros i. destruct (decide (leave_id = i)) as [<-|Hne].
  - rewrite lookup_alter_eq, lookup_insert_eq, Hl. reflexivity.
  - rewrite lookup_alter_ne, lookup_insert_ne by done. reflexivity.
Qed.

(** C2. An approve by a reviewer of a Pending request whose employee has,
    when read again, fewer days than the request asks for is refused with
    the not-enough-balance message: nothing is written, so the request
    stays Pending with all its fields and the balance stays as it was. *)
Theorem approve_insufficient_aborts now w rq leave_id uid l emp :
  acting_as w uid "hr" ->
  form rq !! "action" = Some "approve" ->
  leaves (db w) !! leave_id = Some l ->
  status l = Pending ->
  users (db w) !! employee_id l = Some emp ->
  leave_balance emp < days l ->
  let o := review_leave now w rq leave_id in
  o = Returned (Redirect "hr_dashboard")
        [("Employee does not have enough balance.", "danger")] w /\
  world_after w o = w /\
  leaves (db (world_after w o)) !! leave_id = Some l /\
  users (db (world_after w o)) !! employee_id l = Some emp.
Proof.
  intros Hhr Ha Hl Hst He Hb o. subst o. unfold review_leave.
  caller Hhr. rewrite Hl, Ha, He. cbn.
  destruct (Z.ltb_spec (leave_balance emp) (days l)); [|lia].
  cbn. auto.
Qed.

Lemma approve_insufficient_aborts_witness :
  let w := Ex.world (Ex.logged_in 1 "hr") 3 Pending 5 in
  review_leave "2024-02-21T10:00:00" w Ex.approve 1
  = Returned (Redirect "hr_dashboard")
      [("Employee does not have enough balance.", "danger")] w.
Proof.
  intros w.
  refine (proj1 (approve_insufficient_aborts "2024-02-21T10:00:00" w
                   Ex.approve 1 1 (Ex.request_of Pending 5) (Ex.employee 3)
                   _ eq_refl eq_refl eq_refl eq_refl _)).
  - exists Ex.hr_user. split; reflexivity.
  - cbn. lia.
Defined.

(** C6. An approve by a reviewer of a Pending request whose employee has at
    least the days asked for succeeds: the employee's balance is the former
    one minus the request's days, the request is Approved and carries the
    reviewer, the time of the review and the comment; no other row
    changes. *)
Theorem approve_debits_and_stamps now w rq leave_id uid l emp :
  acting_as w uid "hr" ->
  form rq !! "action" = Some "approve" ->
  leaves (db w) !! leave_id = Some l ->
  status l = Pending ->
  users (db w) !! employee_id l = Some emp ->
  days l <= leave_balance emp ->
  exists w',
    review_leave now w rq leave_id
    = Returned (Redirect "hr_dashboard")
        [("Leave approved and balance updated.", "success")] w' /\
    (exists emp', users (db w') !! employee_id l = Some emp' /\
                  leave_balance emp' = leave_balance emp - days l) /\
    (exists l', leaves (db w') !! leave_id = Some l' /\
                status l' = Approved /\
                reviewed_by l' = Some uid /\
                reviewed_at l' = Some now /\
                review_comment l'
                = Some (PyStr.strip (form_get rq "comment" "")) /\
                days l' = days l /\ employee_id l' = employee_id l) /\
    (forall i, i <> employee_id l -> users (db w') !! i = users (db w) !! i) /\
    (forall i, i <> leave_id -> leaves (db w') !! i = leaves (db w) !! i) /\
    session w' = session w.
Proof.
  intros Hhr Ha Hl Hst He Hb. unfold review_leave.
  caller Hhr. rewrite Hl, Ha, He. cbn.
  destruct (Z.ltb_spec (leave_balance emp) (days l)); [lia|].
  eexists. split; [reflexivity|]. cbn. repeat split.
  - exists (debit (days l) emp). split; [|reflexivity].
    rewrite lookup_alter_eq, He. reflexivity.
  - eexists. split; [rewrite lookup_alter_eq, Hl; reflexivity|].
    cbn. repeat split.
  - intros i Hi. rewrite lookup_alter_ne; auto.
  - intros i Hi. rewrite lookup_alter_ne; auto.
Qed.

Lemma approve_debits_and_stamps_witness :
  exists w',
    review_leave "2024-02-21T10:00:00"
      (Ex.world (Ex.logged_in 1 "hr") 10 Pending 5) Ex.approve 1
    = Returned (Redirect "hr_dashboard")
        [("Leave approved and balance updated.", "success")] w' /\
    (exists emp', users (db w') !! 2 = Some emp' /\
                  leave_balance emp' = 5).
Proof.
  destruct (approve_debits_and_stamps "2024-02-21T10:00:00"
              (Ex.world (Ex.logged_in 1 "hr") 10 Pending 5) Ex.approve 1 1
              (Ex.request_of Pending 5) (Ex.employee 10))
    as (w' & Ho & Hb & _).
  - exists Ex.hr_user. split; reflexivity.
  - reflexivity.
  - reflexivity.
  - reflexivity.
  - reflexivity.
  - cbn. lia.
  - exists w'. split; [exact Ho|exact Hb].
Defined.

(** C1 (as amended). A review of a request that is no longer Pending is not
    refused, since [review_leave] does not read the status.  On such a
    request an approve, when the employee has at least the request's days,
    debits the balance once more, sets the status to Approved and writes
    reviewer, time and comment anew; a reject sets the status to Rejected
    and writes the same three fields anew, leaving every balance alone. *)
Theorem review_of_reviewed_request now w rq leave_id uid l :
  acting_as w uid "hr" ->
  leaves (db w) !! leave_id = Some l ->
  status l <> Pending ->
  let comment := PyStr.strip (form_get rq "comment" "") in
  (form rq !! "action" = Some "approve" ->
   forall emp, users (db w) !! employee_id l = Some emp ->
               days l <= leave_balance emp ->
     exists w',
       review_leave now w rq leave_id
       = Returned (Redirect "hr_dashboard")
           [("Leave approved and balance updated.", "success")] w' /\
       users (db w') !! employee_id l = Some (debit (days l) emp) /\
       leaves (db w') !! leave_id = Some (stamp Approved uid now comment l)) /\
  (form rq !! "action" = Some "reject" ->
     exists w',
       review_leave now w rq leave_id
       = Returned (Redirect "hr_dashboard") [("Leave rejected.", "info")] w' /\
       users (db w') = users (db w) /\
       leaves (db w') !! leave_id = Some (stamp Rejected uid now comment l)).
Proof.
  intros Hhr Hl _ comment. split.
  - intros Ha emp He Hb.
    rewrite (review_approve_ok now w rq leave_id uid l emp) by assumption.
    eexists. split; [reflexivity|]. cbn. rewrite !lookup_insert_eq. auto.
  - intros Ha.
    rewrite (review_reject_ok now w rq leave_id uid l) by assumption.
    eexists. split; [reflexivity|]. cbn. rewrite lookup_insert_eq. auto.
Qed.

Lemma review_of_reviewed_request_witness :
  exists w',
    review_leave "2024-02-22T08:00:00" Ex.approved_once Ex.approve_again 1
    = Returned (Redirect "hr_dashboard")
        [("Leave approved and balance updated.", "success")] w' /\
    users (db w') !! 2 = Some (Ex.employee 0).
Proof.
  pose (l := stamp Approved 1 "2024-02-21T10:00:00" "ok" (Ex.request_of Pending 5)).
  destruct (proj1 (review_of_reviewed_request "2024-02-22T08:00:00"
                     Ex.approved_once Ex.approve_again 1 1 l
                     (ex_intro _ Ex.hr_user (conj eq_refl eq_refl))
                     eq_refl ltac:(discriminate))
              eq_refl (Ex.employee 5) eq_refl ltac:(cbn; lia))
    as (w' & Ho & Hu & _).
  exists w'. split; [exact Ho|exact Hu].
Defined.

(** C1, refuted as stated: the request below is already Approved and the
    balance already debited to 5; a second approve is carried out, debits
    the balance to 0 and overwrites the time and the comment of the
    review. *)
Lemma second_approve_debits_again :
  let w1 := Ex.approved_once in
  let o2 := review_leave "2024-02-22T08:00:00" w1 Ex.approve_again 1 in
  let w2 := world_after w1 o2 in
  (status <$> leaves (db w1) !! 1) = Some Approved /\
  (leave_balance <$> users (db w1) !! 2) = Some 5 /\
  (exists w', o2 = Returned (Redirect "hr_dashboard")
                     [("Leave approved and balance updated.", "success")] w') /\
  (leave_balance <$> users (db w2) !! 2) = Some 0 /\
  (reviewed_at <$> leaves (db w1) !! 1) = Some (Some "2024-02-21T10:00:00") /\
  (reviewed_at <$> leaves (db w2) !! 1) = Some (Some "2024-02-22T08:00:00") /\
  (review_comment <$> leaves (db w1) !! 1) = Some (Some "ok") /\
  (review_comment <$> leaves (db w2) !! 1) = Some (Some "again") /\
  w2 <> w1.
Proof.
  cbv zeta. repeat split; try (vm_compute; reflexivity).
  - eexists. vm_compute. reflexivity.
  - intros E. apply (f_equal (fun w => leave_balance <$> users (db w) !! 2)) in E.
    vm_compute in E. discriminate.
Qed.

(** ** Submission *)

(** C5. A submission by an employee whose computed days exceed the balance
    read again from the table is refused with the insufficient-balance
    message, which quotes that balance; no request is stored and no
    balance changes. *)
Theorem submit_over_balance parse now w rq uid u n :
  acting_as w uid "employee" ->
  method rq = POST ->
  users (db w) !! uid = Some u ->
  calc_days parse (form rq !! "start_date") (form rq !! "end_date") = Some n ->
  leave_balance u < n ->
  let o := apply_leave parse now w rq in
  o = Returned (Redirect "apply_leave")
        [("Insufficient leave balance. You have "
            ++ PyStr.str (leave_balance u) ++ " days.", "danger")] w /\
  leaves (db (world_after w o)) = leaves (db w) /\
  users (db (world_after w o)) = users (db w).
Proof.
  intros Hemp Hm Hu Hd Hb o. subst o. unfold apply_leave.
  caller Hemp. rewrite Hm, Hd, Hu.
  destruct (Z.gtb_spec n (leave_balance u)); [|lia].
  cbn. auto.
Qed.

Lemma submit_over_balance_witness :
  let w := Ex.fresh_world (Ex.logged_in 2 "employee") 3 in
  apply_leave Iso.parse "2024-02-20T09:00:00" w
    (Ex.leave_form "2024-03-01" "2024-03-05")
  = Returned (Redirect "apply_leave")
      [("Insufficient leave balance. You have 3 days.", "danger")] w.
Proof.
  intros w.
  refine (proj1 (submit_over_balance Iso.parse "2024-02-20T09:00:00" w
                   (Ex.leave_form "2024-03-01" "2024-03-05") 2
                   (Ex.employee 3) 5
                   (ex_intro _ (Ex.employee 3) (conj eq_refl eq_refl))
                   eq_refl eq_refl eq_refl _)).
  cbn. lia.
Defined.

(** C3 (as amended). A submission whose dates do not parse is refused with
    the invalid-date message and stores nothing.  A submission whose
    computed day count is not positive has the count 0 (end before start)
    and is not refused for it: when the employee's balance is not negative
    the request is stored, Pending, with 0 days. *)
Theorem submit_without_positive_days parse now w rq uid u :
  acting_as w uid "employee" ->
  method rq = POST ->
  users (db w) !! uid = Some u ->
  let start := form rq !! "start_date" in
  let end_ := form rq !! "end_date" in
  (calc_days parse start end_ = None ->
     apply_leave parse now w rq
     = Returned (Redirect "apply_leave")
         [("Invalid date format. Use YYYY-MM-DD.", "danger")] w) /\
  (forall n, calc_days parse start end_ = Some n -> n <= 0 ->
     0 <= leave_balance u ->
     n = 0 /\
     exists w' l,
       apply_leave parse now w rq
       = Returned (Redirect "employee_dashboard")
           [("Leave application submitted.", "success")] w' /\
       leaves (db w) !! next_id (leaves (db w)) = None /\
       leaves (db w') !! next_id (leaves (db w)) = Some l /\
       days l = 0 /\ status l = Pending /\ employee_id l = uid /\
       start_date l = start /\ end_date l = end_ /\
       users (db w') = users (db w)).
Proof.
  intros Hemp Hm Hu start end_. split.
  - intros Hd. unfold apply_leave. caller Hemp.
    rewrite Hm. fold start end_. rewrite Hd. reflexivity.
  - intros n Hd Hn Hb.
    assert (n = 0) as -> by (pose proof (calc_days_nonneg _ _ _ _ Hd); lia).
    split; [reflexivity|].
    unfold apply_leave. caller Hemp.
    rewrite Hm. fold start end_. rewrite Hd, Hu.
    destruct (Z.gtb_spec 0 (leave_balance u)); [lia|].
    do 2 eexists. split; [reflexivity|]. cbn.
    rewrite lookup_insert_eq. cbn.
    repeat split. apply next_id_fresh.
Qed.

Lemma submit_without_positive_days_witness :
  exists w' l,
    apply_leave Iso.parse "2024-02-20T09:00:00"
      (Ex.fresh_world (Ex.logged_in 2 "employee") 10)
      (Ex.leave_form "2024-03-05" "2024-03-01")
    = Returned (Redirect "employee_dashboard")
        [("Leave application submitted.", "success")] w' /\
    leaves (db w') !! 1 = Some l /\ days l = 0 /\ status l = Pending.
Proof.
  destruct (proj2 (submit_without_positive_days Iso.parse
                     "2024-02-20T09:00:00"
                     (Ex.fresh_world (Ex.logged_in 2 "employee") 10)
                     (Ex.leave_form "2024-03-05" "2024-03-01") 2
                     (Ex.employee 10)
                     (ex_intro _ (Ex.employee 10) (conj eq_refl eq_refl))
                     eq_refl eq_refl)
              0 eq_refl ltac:(lia) ltac:(cbn; lia))
    as (_ & w' & l & Ho & _ & Hl & Hd & Hs & _).
  exists w', l. repeat split; assumption.
Defined.

(** C3, refuted as stated: the dates below are in the wrong order, the day
    count is 0, and the submission is accepted and stored as a Pending
    request of 0 days. *)
Lemma inverted_range_is_stored :
  let w := Ex.fresh_world (Ex.logged_in 2 "employee") 10 in
  let rq := Ex.leave_form "2024-03-05" "2024-03-01" in
  let o := apply_leave Iso.parse "2024-02-20T09:00:00" w rq in
  calc_days Iso.parse (form rq !! "start_date") (form rq !! "end_date") = Some 0 /\
  leaves (db w) = ∅ /\
  (exists w', o = Returned (Redirect "employee_dashboard")
                    [("Leave application submitted.", "success")] w') /\
  leaves (db (world_after w o)) !! 1
  = Some {| employee_id := 2; start_date := Some "2024-03-05";
            end_date := Some "2024-03-01"; days := 0;
            leave_type := "Vacation"; reason := ""; status := Pending;
            applied_at := "2024-02-20T09:00:00"; reviewed_by := None;
            reviewed_at := None; review_comment := None |}.
Proof.
  cbv zeta. repeat split; try (vm_compute; reflexivity).
  eexists. vm_compute. reflexivity.
Qed.

(** ** The balance invariant *)

Lemma map_Forall_alter_row {A} (P : Z -> A -> Prop) (f : A -> A) i
    (m : gmap Z A) :
  map_Forall P m ->
  (forall x, m !! i = Some x -> P i (f x)) ->
  map_Forall P (alter f i m).
Proof.
  intros Hall Hi j y. destruct (decide (i = j)) as [<-|Hne].
  - rewrite lookup_alter_eq. destruct (m !! i) eqn:E; [|done].
    intros [= <-]. auto.
  - rewrite lookup_alter_ne by done. apply Hall.
Qed.

(** A submission writes no balance. *)
Lemma apply_leave_users parse now w rq :
  users (db (world_after w (apply_leave parse now w rq))) = users (db w).
Proof.
  unfold apply_leave, access_denied.
  repeat (match goal with
          | |- context [match ?x with _ => _ end] => destruct x
          end; try reflexivity).
Qed.

(** A request stored by a submission has at least 0 days. *)
Lemma apply_leave_days parse now w rq :
  days_nonneg (db w) ->
  days_nonneg (db (world_after w (apply_leave parse now w rq))).
Proof.
  intros H. unfold apply_leave, access_denied.
  destruct (current_user w) as [[uid user]|]; [|exact H].
  destruct (negb _); [exact H|]. destruct (method rq); [exact H|].
  destruct (calc_days _ _ _) as [n|] eqn:Hd; [|exact H].
  destruct (users (db w) !! uid); [|exact H].
  destruct (n >? _); [exact H|]. cbn.
  apply map_Forall_insert_2; [|exact H].
  cbn. eapply calc_days_nonneg, Hd.
Qed.

(** The only write to a balance: the debit of an approval, made after the
    balance was found to cover the days. *)
Lemma review_leave_users now w rq leave_id :
  users (db (world_after w (review_leave now w rq leave_id))) = users (db w) \/
  exists l emp,
    leaves (db w) !! leave_id = Some l /\
    users (db w) !! employee_id l = Some emp /\
    days l <= leave_balance emp /\
    users (db (world_after w (review_leave now w rq leave_id)))
    = alter (debit (days l)) (employee_id l) (users (db w)).
Proof.
  unfold review_leave.
  destruct (current_user w) as [[uid user]|]; [|by left].
  destruct (negb _); [by left|].
  destruct (leaves (db w) !! leave_id) as [l|] eqn:Hl; [|destruct (sqlite_int _); by left].
  destruct (bool_decide (form rq !! "action" = Some "approve")).
  - destruct (users (db w) !! employee_id l) as [emp|] eqn:He; [|by left].
    destruct (Z.ltb_spec (leave_balance emp) (days l)); [by left|].
    right. exists l, emp. auto.
  - destruct (bool_decide _); by left.
Qed.

Lemma review_leave_balances now w rq leave_id :
  balances_nonneg (db w) ->
  balances_nonneg (db (world_after w (review_leave now w rq leave_id))).
Proof.
  intros H. unfold balances_nonneg.
  destruct (review_leave_users now w rq leave_id)
    as [-> | (l & emp & Hl & He & Hb & ->)]; [exact H|].
  apply map_Forall_alter_row; [exact H|].
  intros x Hx. rewrite He in Hx. injection Hx as <-. cbn. lia.
Qed.

Lemma review_leave_days now w rq leave_id :
  days_nonneg (db w) ->
  days_nonneg (db (world_after w (review_leave now w rq leave_id))).
Proof.
  intros H. unfold review_leave.
  destruct (current_user w) as [[uid user]|]; [|exact H].
  destruct (negb _); [exact H|].
  destruct (leaves (db w) !! leave_id) as [l|] eqn:Hl; [|destruct (sqlite_int _); exact H].
  destruct (bool_decide (form rq !! "action" = Some "approve")).
  - destruct (users (db w) !! employee_id l) as [emp|]; [|exact H].
    destruct (_ <? _); [exact H|]. cbn.
    apply map_Forall_alter_row; [exact H|]. intros x Hx. cbn. eapply H, Hx.
  - destruct (bool_decide _); [|exact H]. cbn.
    apply map_Forall_alter_row; [exact H|]. intros x Hx. cbn. eapply H, Hx.
Qed.

Lemma view_leave_world w leave_id :
  world_after w (view_leave w leave_id) = w.
Proof.
  unfold view_leave, access_denied.
  destruct (leave_with_employee _ _) as [[l u]|]; [|destruct (sqlite_int _); reflexivity].
  destruct (current_user w) as [[uid user]|]; [|reflexivity].
  destruct (_ && _); reflexivity.
Qed.

Lemma step_balances parse op d :
  balances_nonneg d -> balances_nonneg (step parse op d).
Proof.
  intros H. destruct op as [s now rq | s now rq leave_id | s leave_id]; cbn.
  - unfold balances_nonneg. rewrite apply_leave_users. exact H.
  - apply (review_leave_balances now (mkWorld d s)). exact H.
  - rewrite view_leave_world. exact H.
Qed.

Lemma step_days parse op d :
  days_nonneg d -> days_nonneg (step parse op d).
Proof.
  intros H. destruct op as [s now rq | s now rq leave_id | s leave_id]; cbn.
  - apply (apply_leave_days parse now (mkWorld d s)). exact H.
  - apply (review_leave_days now (mkWorld d s)). exact H.
  - rewrite view_leave_world. exact H.
Qed.

Lemma step_users parse op d :
  users (step parse op d) = users d \/
  exists s now rq leave_id l emp,
    op = Review s now rq leave_id /\
    form rq !! "action" = Some "approve" /\
    leaves d !! leave_id = Some l /\
    users d !! employee_id l = Some emp /\
    days l <= leave_balance emp /\
    users (step parse op d) = alter (debit (days l)) (employee_id l) (users d).
Proof.
  destruct op as [s now rq | s now rq leave_id | s leave_id]; cbn.
  - left. apply (apply_leave_users parse now (mkWorld d s)).
  - destruct (decide (form rq !! "action" = Some "approve")) as [Ha|Ha].
    + destruct (review_leave_users now (mkWorld d s) rq leave_id)
        as [E | (l & emp & Hl & He & Hb & E)]; [by left|].
      right. exists s, now, rq, leave_id, l, emp. cbn in *. repeat split; assumption.
    + left. unfold review_leave.
      destruct (current_user _) as [[uid user]|]; [|reflexivity].
      destruct (negb _); [reflexivity|]. cbn.
      destruct (leaves d !! leave_id); [|destruct (sqlite_int _); reflexivity].
      rewrite bool_decide_eq_false_2 by exact Ha.
      destruct (bool_decide _); reflexivity.
  - left. rewrite view_leave_world. reflexivity.
Qed.

(** C4. From a state where no balance is negative, any sequence of
    submissions, reviews (approve, reject or any other action) and views,
    served one after the other, leads to a state where no balance is
    negative.  A balance is written only by the debit of an approval, after
    the balance was found to cover the request's days; and the days of the
    stored requests, the amounts debited, stay at least 0 when they were so
    at the start, since a submission stores a count of at least 0. *)
Theorem balances_stay_nonneg parse ops d :
  balances_nonneg d ->
  balances_nonneg (run_all parse ops d) /\
  (days_nonneg d -> days_nonneg (run_all parse ops d)) /\
  (forall op d0,
     users (step parse op d0) = users d0 \/
     exists s now rq leave_id l emp,
       op = Review s now rq leave_id /\
       form rq !! "action" = Some "approve" /\
       leaves d0 !! leave_id = Some l /\
       users d0 !! employee_id l = Some emp /\
       days l <= leave_balance emp /\
       users (step parse op d0)
       = alter (debit (days l)) (employee_id l) (users d0)).
Proof.
  intros Hb. split; [|split].
  - revert d Hb. induction ops as [|op ops IH]; intros d Hb; cbn; [exact Hb|].
    apply IH, step_balances, Hb.
  - revert d Hb. induction ops as [|op ops IH]; intros d Hb Hd; cbn; [exact Hd|].
    apply IH; [apply step_balances, Hb | apply step_days, Hd].
  - intros op d0. apply step_users.
Qed.

Lemma balances_stay_nonneg_witness :
  balances_nonneg Scenario.start /\
  balances_nonneg (run_all Iso.parse Scenario.ops Scenario.start).
Proof.
  assert (H : balances_nonneg Scenario.start).
  { unfold balances_nonneg. apply (bool_decide_unpack _). vm_compute. exact I. }
  split; [exact H|].
  exact (proj1 (balances_stay_nonneg Iso.parse Scenario.ops Scenario.start H)).
Defined.

(** ** Reviews served one after the other *)

(** What an approval tells about the world it was made in. *)
Lemma is_approval_inv now w rq leave_id :
  is_approval (review_leave now w rq leave_id) ->
  exists l emp,
    leaves (db w) !! leave_id = Some l /\
    users (db w) !! employee_id l = Some emp /\
    days l <= leave_balance emp /\
    users (db (world_after w (review_leave now w rq leave_id)))
    = alter (debit (days l)) (employee_id l) (users (db w)) /\
    forall i, days <$> leaves (db (world_after w (review_leave now w rq leave_id))) !! i
              = days <$> leaves (db w) !! i.
Proof.
  intros [w' E]. revert E. unfold review_leave.
  destruct (current_user w) as [[uid user]|]; [|discriminate].
  destruct (negb _); [discriminate|].
  destruct (leaves (db w) !! leave_id) as [l|] eqn:Hl; [|destruct (sqlite_int _); discriminate].
  destruct (bool_decide (form rq !! "action" = Some "approve")).
  - destruct (users (db w) !! employee_id l) as [emp|] eqn:He; [|discriminate].
    destruct (Z.ltb_spec (leave_balance emp) (days l)); [discriminate|].
    intros _. exists l, emp. cbn. repeat split; try assumption.
    intros i. destruct (decide (leave_id = i)) as [<-|Hne].
    + rewrite lookup_alter_eq, Hl. reflexivity.
    + rewrite lookup_alter_ne by done. reflexivity.
  - destruct (bool_decide _); discriminate.
Qed.

(** A review leaves every request in place, with its days and its
    employee. *)
Lemma review_leave_keeps_requests now w rq leave_id i l :
  leaves (db w) !! i = Some l ->
  exists l', leaves (db (world_after w (review_leave now w rq leave_id))) !! i
             = Some l' /\
             days l' = days l /\ employee_id l' = employee_id l.
Proof.
  intros Hi. unfold review_leave.
  destruct (current_user w) as [[uid user]|]; [|eauto].
  destruct (negb _); [eauto|].
  destruct (leaves (db w) !! leave_id) as [l0|] eqn:Hl; [|destruct (sqlite_int _); eauto].
  assert (Halt : forall st c,
            exists l', alter (stamp st uid now c) leave_id (leaves (db w)) !! i
                       = Some l' /\
                       days l' = days l /\ employee_id l' = employee_id l).
  { intros st c. destruct (decide (leave_id = i)) as [<-|Hne].
    - rewrite lookup_alter_eq, Hi. cbn. eauto.
    - rewrite lookup_alter_ne by done. eauto. }
  destruct (bool_decide (form rq !! "action" = Some "approve")).
  - destruct (users (db w) !! employee_id l0) as [emp|]; [|eauto].
    destruct (_ <? _); [eauto|]. cbn. apply Halt.
  - destruct (bool_decide _); [|eauto]. cbn. apply Halt.
Qed.

(** X27. When two reviews are served one after the other: if they are
    approvals of requests of one employee whose days together exceed the
    balance, they are not both carried out, and no balance is negative
    after either; if they address the same request and the second is a
    reject by a reviewer, the second is carried out whatever the first
    did, for no review is refused on account of an earlier one. *)
Theorem reviews_in_sequence now1 now2 s1 s2 rq1 rq2 id1 id2 l1 l2 emp d :
  balances_nonneg d ->
  leaves d !! id1 = Some l1 ->
  leaves d !! id2 = Some l2 ->
  users d !! employee_id l1 = Some emp ->
  let o1 := review_leave now1 (mkWorld d s1) rq1 id1 in
  let d1 := db (world_after (mkWorld d s1) o1) in
  let o2 := review_leave now2 (mkWorld d1 s2) rq2 id2 in
  let d2 := db (world_after (mkWorld d1 s2) o2) in
  (employee_id l1 = employee_id l2 ->
   leave_balance emp < days l1 + days l2 ->
   ~ (is_approval o1 /\ is_approval o2)) /\
  balances_nonneg d1 /\ balances_nonneg d2 /\
  (id1 = id2 ->
   forall uid2, acting_as (mkWorld d1 s2) uid2 "hr" ->
                form rq2 !! "action" = Some "reject" ->
                is_rejection o2).
Proof.
  intros Hb H1 H2 He o1 d1 o2 d2.
  assert (Hb1 : balances_nonneg d1)
    by (apply (review_leave_balances now1 (mkWorld d s1)), Hb).
  assert (Hb2 : balances_nonneg d2)
    by (apply (review_leave_balances now2 (mkWorld d1 s2)), Hb1).
  repeat split; try assumption.
  - intros Hsame Hsum [A1 A2].
    apply is_approval_inv in A1.
    destruct A1 as (l & e & Hl & Hu & Hle & Husers & _). cbn in Hl, Hu, Husers.
    rewrite H1 in Hl. injection Hl as <-.
    rewrite He in Hu. injection Hu as <-.
    apply is_approval_inv in A2.
    destruct A2 as (l' & e' & Hl' & Hu' & Hle' & _). cbn in Hl', Hu'.
    destruct (review_leave_keeps_requests now1 (mkWorld d s1) rq1 id1 id2 l2 H2)
      as (l2' & Hl2' & Hd2 & He2).
    fold o1 in Hl2'. fold d1 in Hl2'. rewrite Hl2' in Hl'. injection Hl' as <-.
    fold o1 in Husers. fold d1 in Husers.
    rewrite Husers, He2, <- Hsame, lookup_alter_eq, He in Hu'.
    injection Hu' as <-. cbn in Hle'. lia.
  - intros <- uid2 Hhr Ha.
    destruct (review_leave_keeps_requests now1 (mkWorld d s1) rq1 id1 id1 l1 H1)
      as (l1' & Hl1' & _).
    unfold o2. eexists.
    apply (review_reject_ok now2 (mkWorld d1 s2) rq2 id1 uid2 l1'); assumption.
Qed.

Lemma reviews_in_sequence_witness :
  let d := db (Ex.world Ex.anonymous 8 Pending 5) in
  let o1 := review_leave "2024-02-21T10:00:00" (mkWorld d Scenario.hr)
              Ex.approve 1 in
  let d1 := db (world_after (mkWorld d Scenario.hr) o1) in
  let o2 := review_leave "2024-02-22T08:00:00" (mkWorld d1 Scenario.hr)
              Ex.approve_again 1 in
  balances_nonneg d /\ ~ (is_approval o1 /\ is_approval o2).
Proof.
  intros d o1 d1 o2.
  assert (H : balances_nonneg d).
  { unfold balances_nonneg. apply (bool_decide_unpack _). vm_compute. exact I. }
  split; [exact H|].
  refine (proj1 (reviews_in_sequence "2024-02-21T10:00:00"
                   "2024-02-22T08:00:00" Scenario.hr Scenario.hr Ex.approve
                   Ex.approve_again 1 1 (Ex.request_of Pending 5)
                   (Ex.request_of Pending 5) (Ex.employee 8) d
                   H eq_refl eq_refl eq_refl) eq_refl _).
  cbn. lia.
Defined.

(** Two reviews of the same Pending request, an approve and then a
    reject, served one after the other: both are carried out and neither
    is refused, and the request ends Rejected while the balance has been
    debited from 10 to 5. *)
Lemma both_reviews_win :
  let d := Scenario.pending in
  let o1 := review_leave "2024-02-21T10:00:00" (mkWorld d Scenario.hr)
              Ex.approve 1 in
  let d1 := db (world_after (mkWorld d Scenario.hr) o1) in
  let o2 := review_leave "2024-02-23T08:00:00" (mkWorld d1 Scenario.hr)
              Ex.reject 1 in
  let d2 := db (world_after (mkWorld d1 Scenario.hr) o2) in
  (status <$> leaves d !! 1) = Some Pending /\
  is_approval o1 /\ is_rejection o2 /\
  (status <$> leaves d1 !! 1) = Some Approved /\
  (status <$> leaves d2 !! 1) = Some Rejected /\
  (leave_balance <$> users d !! 2) = Some 10 /\
  (leave_balance <$> users d2 !! 2) = Some 5.
Proof.
  cbv zeta. repeat split; try (vm_compute; reflexivity).
  - eexists. vm_compute. reflexivity.
  - eexists. vm_compute. reflexivity.
Qed.

(** ** Viewing one request *)

(** Submissions, reviews and views keep every request attached to a user
    of the table. *)
Lemma step_employees_exist parse op d :
  employees_exist d -> employees_exist (step parse op d).
Proof.
  intros H. destruct op as [s now rq | s now rq leave_id | s leave_id]; cbn.
  - unfold apply_leave, access_denied.
    destruct (current_user _) as [[uid user]|]; [|exact H].
    destruct (negb _); [exact H|]. destruct (method rq); [exact H|].
    destruct (calc_days _ _ _) as [n|]; [|exact H]. cbn.
    destruct (users d !! uid) as [u|] eqn:Hu; [|exact H].
    destruct (n >? _); [exact H|]. cbn.
    apply map_Forall_insert_2; [|exact H]. cbn. rewrite Hu. eauto.
  - unfold review_leave.
    destruct (current_user _) as [[uid user]|]; [|exact H].
    destruct (negb _); [exact H|]. cbn.
    destruct (leaves d !! leave_id) as [l|] eqn:Hl; [|destruct (sqlite_int _); exact H].
    destruct (bool_decide (form rq !! "action" = Some "approve")).
    + destruct (users d !! employee_id l) as [emp|] eqn:He; [|exact H].
      destruct (_ <? _); [exact H|]. unfold employees_exist. cbn.
      assert (Hdom : forall k, is_Some (users d !! k) ->
                is_Some (alter (debit (days l)) (employee_id l) (users d) !! k)).
      { intros k [x Hx]. destruct (decide (employee_id l = k)) as [<-|Hne].
        - rewrite lookup_alter_eq, Hx. cbn. eauto.
        - rewrite lookup_alter_ne by done. eauto. }
      apply map_Forall_alter_row.
      * intros k x Hx. apply Hdom. exact (H k x Hx).
      * intros x Hx. cbn. apply Hdom. exact (H leave_id x Hx).
    + destruct (bool_decide _); [|exact H]. unfold employees_exist. cbn.
      apply map_Forall_alter_row; [exact H|].
      intros x Hx. cbn. exact (H leave_id x Hx).
  - rewrite view_leave_world. exact H.
Qed.

Lemma run_all_employees_exist parse ops d :
  employees_exist d -> employees_exist (run_all parse ops d).
Proof.
  revert d. induction ops as [|op ops IH]; intros d H; cbn; [exact H|].
  apply IH, step_employees_exist, H.
Qed.

(** C10. Where every request belongs to a user of the table, viewing an
    existing request without a user in the session raises: the role of the
    absent user is read, and no access-denied response is produced.  With a
    current user the handler returns a response, and changes nothing, for
    every id that fits the 64 bits of a row id. *)
Theorem view_leave_anonymous_raises w leave_id l :
  employees_exist (db w) ->
  user_id (session w) = None ->
  leaves (db w) !! leave_id = Some l ->
  view_leave w leave_id = Raised TypeError /\
  view_leave w leave_id <> access_denied w /\
  (forall w0 i, current_user w0 <> None -> sqlite_int i = true ->
                exists r fl, view_leave w0 i = Returned r fl w0).
Proof.
  intros Hex Hs Hl.
  assert (E : view_leave w leave_id = Raised TypeError).
  { unfold view_leave, leave_with_employee. rewrite Hl.
    destruct (Hex leave_id l Hl) as [u Hu]. rewrite Hu.
    rewrite (current_user_anonymous w Hs). reflexivity. }
  split; [exact E|]. split; [rewrite E; discriminate|].
  intros w0 i Hc Hi. unfold view_leave, access_denied.
  destruct (leave_with_employee _ _) as [[l0 u0]|]; [|rewrite Hi; eauto].
  destruct (current_user w0) as [[uid u]|]; [|congruence].
  destruct (_ && _); eauto.
Qed.

Lemma view_leave_anonymous_raises_witness :
  view_leave (Ex.world Ex.anonymous 10 Pending 5) 1 = Raised TypeError.
Proof.
  refine (proj1 (view_leave_anonymous_raises
                   (Ex.world Ex.anonymous 10 Pending 5) 1
                   (Ex.request_of Pending 5) _ eq_refl eq_refl)).
  unfold employees_exist. apply (bool_decide_unpack _). vm_compute. exact I.
Defined.

(** ** Registration *)

(** What the handler does with the role: a registration that passes the
    handler's own checks (name, email and password not empty, email not
    yet registered) hands the role to the table exactly as the form sent
    it, [employee] when the form has none.  The row is stored when the
    table accepts the value, and the INSERT raises when it does not. *)
Lemma register_stores_submitted_role hash sch w rq :
  method rq = POST ->
  let name_ := PyStr.strip (form_get rq "name" "") in
  let email_ := PyStr.lower (PyStr.strip (form_get rq "email" "")) in
  let password := form_get rq "password" "" in
  let role_ := form_get rq "role" "employee" in
  name_ <> "" -> email_ <> "" -> password <> "" ->
  email_registered (users (db w)) email_ = false ->
  (role_accepted sch role_ = true ->
   exists w',
     register hash sch w rq
     = Returned (Redirect "index")
         [("Registered and logged in.", "success")] w' /\
     users (db w) !! next_id (users (db w)) = None /\
     users (db w') !! next_id (users (db w))
     = Some {| name := name_; email := email_; password_hash := hash password;
               role := role_; leave_balance := default_leave_balance sch |} /\
     session w' = {| user_id := Some (next_id (users (db w)));
                     session_role := Some role_ |}) /\
  (role_accepted sch role_ = false ->
   register hash sch w rq = Raised IntegrityError) /\
  (roles_accepted sch (db w) ->
   roles_accepted sch (db (world_after w (register hash sch w rq)))).
Proof.
  intros Hm name_ email_ password role_ Hn He Hp Hfree.
  assert (Hchecks : PyStr.falsy name_ || PyStr.falsy email_
                    || PyStr.falsy password = false).
  { destruct name_; [done|]. destruct email_; [done|].
    destruct password; [done|]. reflexivity. }
  assert (Hreg : register hash sch w rq
                 = if role_accepted sch role_ then
                     Returned (Redirect "index")
                       [("Registered and logged in.", "success")]
                       {| db := {| users :=
                                     <[next_id (users (db w)) :=
                                         {| name := name_; email := email_;
                                            password_hash := hash password;
                                            role := role_;
                                            leave_balance :=
                                              default_leave_balance sch |}]>
                                       (users (db w));
                                   leaves := leaves (db w) |};
                          session := login_user (next_id (users (db w)))
                                       {| name := name_; email := email_;
                                          password_hash := hash password;
                                          role := role_;
                                          leave_balance :=
                                            default_leave_balance sch |} |}
                   else Raised IntegrityError).
  { unfold register. rewrite Hm. fold name_ email_ password role_.
    rewrite Hchecks, Hfree. reflexivity. }
  repeat split.
  - intros Hacc. rewrite Hreg, Hacc. eexists. split; [reflexivity|]. cbn.
    rewrite lookup_insert_eq. repeat split. apply next_id_fresh.
  - intros Hrej. rewrite Hreg, Hrej. reflexivity.
  - intros Hall. rewrite Hreg. destruct (role_accepted sch role_) eqn:Hacc.
    + cbn. apply map_Forall_insert_2; [exact Hacc|exact Hall].
    + exact Hall.
Qed.

(** ** Looking a user up by email *)

Lemma least_with_email_None e rows :
  least_with_email e rows = None <->
  (forall k u, (k, u) ∈ rows -> email u <> e).
Proof.
  induction rows as [|[k u] rest IH]; cbn.
  - split; [|done]. intros _ k u H. inversion H.
  - destruct (String.eqb_spec (email u) e) as [Heq|Hne].
    + split.
      * destruct (least_with_email e rest) as [[k' u']|]; [|done].
        destruct (k' <? k); done.
      * intros H. exfalso. apply (H k u); [left|exact Heq].
    + rewrite IH. split.
      * intros H k' u' Hin. apply elem_of_cons in Hin as [[= -> ->]|Hin]; eauto.
      * intros H k' u' Hin. apply (H k' u'). by right.
Qed.

Lemma least_with_email_Some e rows k u :
  least_with_email e rows = Some (k, u) ->
  (k, u) ∈ rows /\ email u = e /\
  (forall k' u', (k', u') ∈ rows -> email u' = e -> k <= k').
Proof.
  revert k u. induction rows as [|[k0 u0] rest IH]; cbn; [done|].
  intros k u.
  destruct (String.eqb_spec (email u0) e) as [Heq|Hne].
  - destruct (least_with_email e rest) as [[k1 u1]|] eqn:Hr.
    + destruct (IH k1 u1 eq_refl) as (Hin & He & Hmin).
      destruct (Z.ltb_spec k1 k0).
      * intros [= <- <-]. split; [by right|]. split; [exact He|].
        intros k' u' Hin' He'.
        apply elem_of_cons in Hin' as [[= -> ->]|Hin']; [lia|eauto].
      * intros [= <- <-]. split; [left|]. split; [exact Heq|].
        intros k' u' Hin' He'.
        apply elem_of_cons in Hin' as [[= -> ->]|Hin']; [lia|].
        specialize (Hmin k' u' Hin' He'). lia.
    + intros [= <- <-]. split; [left|]. split; [exact Heq|].
      intros k' u' Hin' He'.
      apply elem_of_cons in Hin' as [[= -> ->]|Hin']; [lia|].
      exfalso. eapply (proj1 (least_with_email_None e rest) Hr); eauto.
  - intros Hr. destruct (IH k u Hr) as (Hin & He & Hmin).
    split; [by right|]. split; [exact He|].
    intros k' u' Hin' He'.
    apply elem_of_cons in Hin' as [[= -> ->]|Hin']; [congruence|eauto].
Qed.

Lemma user_by_email_Some m e k u :
  user_by_email m e = Some (k, u) ->
  m !! k = Some u /\ email u = e /\
  (forall k' u', m !! k' = Some u' -> email u' = e -> k <= k').
Proof.
  intros H. apply least_with_email_Some in H as (Hin & He & Hmin).
  split; [by apply elem_of_map_to_list|]. split; [exact He|].
  intros k' u' Hk'. apply Hmin. by apply elem_of_map_to_list.
Qed.

Lemma user_by_email_None m e :
  user_by_email m e = None <->
  (forall k u, m !! k = Some u -> email u <> e).
Proof.
  unfold user_by_email. rewrite least_with_email_None. split.
  - intros H k u Hk. apply (H k). by apply elem_of_map_to_list.
  - intros H k u Hin. apply (H k). by apply elem_of_map_to_list.
Qed.

(** The only row with an email is the row the lookup returns. *)
Lemma user_by_email_only m k u :
  m !! k = Some u ->
  (forall j v, m !! j = Some v -> email v = email u -> j = k) ->
  user_by_email m (email u) = Some (k, u).
Proof.
  intros Hk Honly.
  destruct (user_by_email m (email u)) as [[j v]|] eqn:E.
  - apply user_by_email_Some in E as (Hj & He & _).
    assert (j = k) as -> by eauto. congruence.
  - exfalso. rewrite user_by_email_None in E. by apply (E k u).
Qed.

Lemma email_registered_true m e :
  email_registered m e = true <->
  exists k u, m !! k = Some u /\ email u = e.
Proof.
  unfold email_registered. rewrite bool_decide_eq_true.
  unfold map_Exists. done.
Qed.

Lemma email_registered_false m e :
  email_registered m e = false <->
  (forall k u, m !! k = Some u -> email u <> e).
Proof.
  unfold email_registered. rewrite bool_decide_eq_false.
  unfold map_Exists. split.
  - intros H k u Hk He. apply H. eauto.
  - intros H (k & u & Hk & He). eapply H; eauto.
Qed.

Lemma next_id_positive {A} (m : gmap Z A) : 1 <= next_id m.
Proof.
  unfold next_id.
  apply (map_fold_weak_ind (fun r (_ : gmap Z A) => 1 <= r + 1)); intros; lia.
Qed.

(** ** More on registration *)

Lemma lower_char_idempotent c :
  PyStr.lower_char (PyStr.lower_char c) = PyStr.lower_char c.
Proof.
  destruct c as [[] [] [] [] [] [] [] []]; vm_compute; reflexivity.
Qed.

Lemma lower_idempotent s : PyStr.lower (PyStr.lower s) = PyStr.lower s.
Proof.
  induction s as [|c s IH]; cbn; [reflexivity|].
  rewrite lower_char_idempotent, IH. reflexivity.
Qed.

Lemma falsy_empty s : PyStr.falsy s = true <-> s = "".
Proof. destruct s; cbn; split; congruence. Qed.

(** What [register] does with a POST once the form values are known. *)
Lemma register_post hash sch w rq :
  method rq = POST ->
  let name_ := PyStr.strip (form_get rq "name" "") in
  let email_ := PyStr.lower (PyStr.strip (form_get rq "email" "")) in
  let password := form_get rq "password" "" in
  let role_ := form_get rq "role" "employee" in
  let u := {| name := name_; email := email_; password_hash := hash password;
              role := role_; leave_balance := default_leave_balance sch |} in
  register hash sch w rq
  = if PyStr.falsy name_ || PyStr.falsy email_ || PyStr.falsy password then
      Returned (Redirect "register")
        [("Fill all required fields.", "warning")] w
    else if email_registered (users (db w)) email_ then
      Returned (Redirect "register")
        [("Email already registered.", "danger")] w
    else if role_accepted sch role_ then
      Returned (Redirect "index") [("Registered and logged in.", "success")]
        {| db := {| users := <[next_id (users (db w)) := u]> (users (db w));
                    leaves := leaves (db w) |};
           session := login_user (next_id (users (db w))) u |}
    else Raised IntegrityError.
Proof. intros Hm. unfold register. rewrite Hm. reflexivity. Qed.

(** The users table after [register]: as before, or with one row added
    under a new id, whose email is lower case and was not in the table. *)
Lemma register_users hash sch w rq :
  users (db (world_after w (register hash sch w rq))) = users (db w) \/
  exists u,
    users (db (world_after w (register hash sch w rq)))
    = <[next_id (users (db w)) := u]> (users (db w)) /\
    PyStr.lower (email u) = email u /\
    (forall k v, users (db w) !! k = Some v -> email v <> email u).
Proof.
  destruct (method rq) eqn:Hm.
  - left. unfold register. rewrite Hm. reflexivity.
  - rewrite (register_post hash sch w rq Hm). cbv zeta.
    destruct (_ || _); [by left|].
    destruct (email_registered _ _) eqn:Hreg; [by left|].
    destruct (role_accepted _ _); [|by left].
    right. eexists. split; [reflexivity|]. cbn. split.
    + apply lower_idempotent.
    + by apply email_registered_false.
Qed.

(** X1. A registration form in which the name or the email is missing or
    blank, or the password is missing or empty, is refused with the
    fill-all-fields message, and nothing is stored or logged in. *)
Theorem register_requires_all_fields hash sch w rq :
  method rq = POST ->
  PyStr.strip (form_get rq "name" "") = "" \/
  PyStr.lower (PyStr.strip (form_get rq "email" "")) = "" \/
  form_get rq "password" "" = "" ->
  register hash sch w rq
  = Returned (Redirect "register")
      [("Fill all required fields.", "warning")] w.
Proof.
  intros Hm H. rewrite (register_post hash sch w rq Hm). cbv zeta.
  destruct H as [-> | [-> | ->]]; cbn; rewrite ?orb_true_r; reflexivity.
Qed.

Lemma register_requires_all_fields_witness :
  register Ex.hash Ex.schema (Ex.fresh_world Ex.anonymous 10)
    (Ex.post [("name", "   "); ("email", "a@b.org"); ("password", "pw")])
  = Returned (Redirect "register")
      [("Fill all required fields.", "warning")]
      (Ex.fresh_world Ex.anonymous 10).
Proof.
  apply (register_requires_all_fields Ex.hash Ex.schema
           (Ex.fresh_world Ex.anonymous 10)
           (Ex.post [("name", "   "); ("email", "a@b.org"); ("password", "pw")])
           eq_refl).
  left. reflexivity.
Defined.

(** X2. A registration whose email, once stripped and put in lower case,
    is the email of a stored user stores nothing and leaves the session as
    it was, whatever the other fields are: it is refused, with the
    already-registered message when the name, the email and the password
    are all there, and with the fill-all-fields message when one of them
    is blank. *)
Theorem register_rejects_known_email hash sch w rq k u :
  method rq = POST ->
  users (db w) !! k = Some u ->
  email u = PyStr.lower (PyStr.strip (form_get rq "email" "")) ->
  world_after w (register hash sch w rq) = w /\
  (register hash sch w rq
   = Returned (Redirect "register")
       [("Fill all required fields.", "warning")] w \/
   register hash sch w rq
   = Returned (Redirect "register")
       [("Email already registered.", "danger")] w) /\
  (PyStr.strip (form_get rq "name" "") <> "" ->
   email u <> "" ->
   form_get rq "password" "" <> "" ->
   register hash sch w rq
   = Returned (Redirect "register")
       [("Email already registered.", "danger")] w).
Proof.
  intros Hm Hk He. rewrite (register_post hash sch w rq Hm). cbv zeta.
  rewrite <- He.
  rewrite (proj2 (email_registered_true (users (db w)) (email u))) by eauto.
  destruct (PyStr.falsy (PyStr.strip (form_get rq "name" "")) ||
            PyStr.falsy (email u) ||
            PyStr.falsy (form_get rq "password" "")) eqn:Hblank.
  - split; [reflexivity|]. split; [by left|]. intros Hn Hne Hp. exfalso.
    destruct (PyStr.strip (form_get rq "name" "")); [done|].
    destruct (email u); [done|].
    destruct (form_get rq "password" ""); [done|]. discriminate.
  - split; [reflexivity|]. split; [by right|]. reflexivity.
Qed.

Lemma register_rejects_known_email_witness :
  register Ex.hash Ex.schema (Ex.fresh_world Ex.anonymous 10)
    (Ex.post [("name", "Emil II"); ("email", "  EMIL@example.org ");
              ("password", "pw")])
  = Returned (Redirect "register")
      [("Email already registered.", "danger")]
      (Ex.fresh_world Ex.anonymous 10).
Proof.
  apply (proj2 (proj2 (register_rejects_known_email Ex.hash Ex.schema
           (Ex.fresh_world Ex.anonymous 10)
           (Ex.post [("name", "Emil II"); ("email", "  EMIL@example.org ");
                     ("password", "pw")]) 2 (Ex.employee 10)
           eq_refl eq_refl eq_refl))).
  - vm_compute. discriminate.
  - vm_compute. discriminate.
  - vm_compute. discriminate.
Defined.

(** X3. Registration keeps the emails of the users table pairwise
    distinct and in lower case: whatever the request, a table with these
    two properties has them afterwards. *)
Theorem register_keeps_emails_distinct hash sch w rq :
  emails_unique (db w) -> emails_lowercase (db w) ->
  emails_unique (db (world_after w (register hash sch w rq))) /\
  emails_lowercase (db (world_after w (register hash sch w rq))).
Proof.
  intros Hu Hl. unfold emails_unique, emails_lowercase.
  destruct (register_users hash sch w rq) as [-> | (u & -> & Hlow & Hnew)];
    [split; assumption|].
  split.
  - intros i j a b Hi Hj He.
    rewrite lookup_insert in Hi. rewrite lookup_insert in Hj.
    destruct (decide (next_id (users (db w)) = i)) as [<-|Hni];
      destruct (decide (next_id (users (db w)) = j)) as [<-|Hnj];
      simplify_eq; try done.
    + exfalso. eapply Hnew; eauto.
    + exfalso. eapply Hnew; eauto.
    + eapply Hu; eauto.
  - apply map_Forall_insert_2; assumption.
Qed.

Lemma register_keeps_emails_distinct_witness :
  emails_unique
    (db (world_after (Ex.fresh_world Ex.anonymous 10)
           (register Ex.hash Ex.schema (Ex.fresh_world Ex.anonymous 10)
              Ex2.hr_form))).
Proof.
  refine (proj1 (register_keeps_emails_distinct Ex.hash Ex.schema
                   (Ex.fresh_world Ex.anonymous 10) Ex2.hr_form _ _)).
  - intros i j u v Hi Hj He. cbn in Hi, Hj. unfold Ex.people in *.
    rewrite lookup_insert in Hi. rewrite lookup_insert in Hj.
    repeat case_decide; subst; try done;
      rewrite ?lookup_insert in *; repeat case_decide; subst;
      rewrite ?lookup_empty in *; simplify_eq; done.
  - unfold emails_lowercase. apply (bool_decide_unpack _). vm_compute. exact I.
Defined.

(** X4. Whatever the request, registration leaves every stored user and
    every request as it was; and when it answers that the user is
    registered, that user is the current user of the new session. *)
Theorem register_adds_and_logs_in hash sch w rq r w' :
  register hash sch w rq
  = Returned r [("Registered and logged in.", "success")] w' ->
  (forall i u, users (db w) !! i = Some u -> users (db w') !! i = Some u) /\
  leaves (db w') = leaves (db w) /\
  exists u,
    current_user w' = Some (next_id (users (db w)), u) /\
    users (db w) !! next_id (users (db w)) = None /\
    email u = PyStr.lower (PyStr.strip (form_get rq "email" "")) /\
    role u = form_get rq "role" "employee" /\
    leave_balance u = default_leave_balance sch.
Proof.
  destruct (method rq) eqn:Hm.
  { unfold register. rewrite Hm. discriminate. }
  rewrite (register_post hash sch w rq Hm). cbv zeta.
  destruct (_ || _); [discriminate|].
  destruct (email_registered _ _); [discriminate|].
  destruct (role_accepted _ _); [|discriminate].
  intros [= _ <-]. cbn.
  pose proof (next_id_fresh (users (db w))) as Hfresh.
  pose proof (next_id_positive (users (db w))) as Hpos.
  split; [|split; [reflexivity|]].
  - intros i u Hi. rewrite lookup_insert_ne; [exact Hi|]. congruence.
  - eexists. unfold current_user. cbn.
    destruct (Z.eqb_spec (next_id (users (db w))) 0); [lia|].
    rewrite lookup_insert_eq. repeat split. exact Hfresh.
Qed.

Lemma register_adds_and_logs_in_witness :
  exists u,
    current_user
      (world_after (Ex.fresh_world Ex.anonymous 10)
         (register Ex.hash Ex.schema (Ex.fresh_world Ex.anonymous 10)
            Ex2.hr_form))
    = Some (3, u) /\ email u = "rosa@example.org" /\ role u = "hr".
Proof.
  destruct (register_adds_and_logs_in Ex.hash Ex.schema
              (Ex.fresh_world Ex.anonymous 10) Ex2.hr_form _ _ eq_refl)
    as (_ & _ & u & Hc & _ & He & Hr & _).
  exists u. split; [exact Hc|]. split; [exact He|exact Hr].
Defined.

(** X5. The role is taken from the form, so a visitor who registers with
    the role [hr] (where the table accepts it) is a reviewer at once: an
    approve sent in the session the registration opened is carried out on
    any stored request whose employee has the days. *)
Theorem registered_hr_can_approve hash sch w rq now rq2 leave_id l emp :
  method rq = POST ->
  PyStr.strip (form_get rq "name" "") <> "" ->
  PyStr.lower (PyStr.strip (form_get rq "email" "")) <> "" ->
  form_get rq "password" "" <> "" ->
  email_registered (users (db w))
    (PyStr.lower (PyStr.strip (form_get rq "email" ""))) = false ->
  form rq !! "role" = Some "hr" ->
  role_accepted sch "hr" = true ->
  form rq2 !! "action" = Some "approve" ->
  leaves (db w) !! leave_id = Some l ->
  users (db w) !! employee_id l = Some emp ->
  days l <= leave_balance emp ->
  is_approval
    (review_leave now (world_after w (register hash sch w rq)) rq2 leave_id).
Proof.
  intros Hm Hn He Hp Hfree Hrole Hacc Ha Hl Hemp Hb.
  assert (Hr : form_get rq "role" "employee" = "hr")
    by (unfold form_get; rewrite Hrole; reflexivity).
  assert (Hreg : exists w',
             register hash sch w rq
             = Returned (Redirect "index")
                 [("Registered and logged in.", "success")] w').
  { rewrite (register_post hash sch w rq Hm). cbv zeta.
    rewrite Hfree, Hr, Hacc.
    destruct (PyStr.strip (form_get rq "name" "")); [done|].
    destruct (PyStr.lower (PyStr.strip (form_get rq "email" ""))); [done|].
    destruct (form_get rq "password" ""); [done|]. cbn. eauto. }
  destruct Hreg as [w' Hreg].
  destruct (register_adds_and_logs_in hash sch w rq _ w' Hreg)
    as (Hkeep & Hleaves & u & Hc & _ & _ & Hru & _).
  rewrite Hreg. cbn [world_after].
  eexists.
  apply (review_approve_ok now w' rq2 leave_id (next_id (users (db w))) l emp).
  - exists u. split; [exact Hc|]. rewrite Hru. exact Hr.
  - exact Ha.
  - rewrite Hleaves. exact Hl.
  - apply Hkeep, Hemp.
  - exact Hb.
Qed.

Lemma registered_hr_can_approve_witness :
  is_approval
    (review_leave "2024-02-21T10:00:00"
       (world_after (Ex.world Ex.anonymous 10 Pending 5)
          (register Ex.hash Ex.schema (Ex.world Ex.anonymous 10 Pending 5)
             Ex2.hr_form))
       Ex.approve 1).
Proof.
  apply (registered_hr_can_approve Ex.hash Ex.schema
           (Ex.world Ex.anonymous 10 Pending 5) Ex2.hr_form
           "2024-02-21T10:00:00" Ex.approve 1 (Ex.request_of Pending 5)
           (Ex.employee 10) eq_refl).
  - vm_compute. discriminate.
  - vm_compute. discriminate.
  - vm_compute. discriminate.
  - vm_compute. reflexivity.
  - reflexivity.
  - reflexivity.
  - reflexivity.
  - reflexivity.
  - reflexivity.
  - cbn. lia.
Defined.

(** ** Login and logout *)

(** X6. A login is refused with the invalid-credentials message, and the
    session and the tables stay as they were, when no stored user has the
    stripped, lower-cased email of the form, and also when the password
    does not check against the hash of the users who have it. *)
Theorem login_rejects check w rq :
  method rq = POST ->
  (forall k u, users (db w) !! k = Some u ->
     email u = PyStr.lower (PyStr.strip (form_get rq "email" "")) ->
     check (password_hash u) (form_get rq "password" "") = false) ->
  login check w rq
  = Returned (Redirect "login") [("Invalid credentials.", "danger")] w.
Proof.
  intros Hm H. unfold login, invalid_credentials. rewrite Hm.
  destruct (user_by_email _ _) as [[k u]|] eqn:E; [|reflexivity].
  apply user_by_email_Some in E as (Hk & He & _).
  rewrite (H k u Hk He). reflexivity.
Qed.

Lemma login_rejects_witness :
  login Ex2.check (Ex.fresh_world Ex.anonymous 10)
    (Ex.post [("email", "nobody@example.org"); ("password", "x")])
  = Returned (Redirect "login") [("Invalid credentials.", "danger")]
      (Ex.fresh_world Ex.anonymous 10).
Proof.
  apply (login_rejects Ex2.check (Ex.fresh_world Ex.anonymous 10)
           (Ex.post [("email", "nobody@example.org"); ("password", "x")])
           eq_refl).
  intros k u Hk He. exfalso. cbn in Hk. unfold Ex.people in Hk.
  rewrite lookup_insert in Hk. case_decide.
  - injection Hk as <-. vm_compute in He. discriminate.
  - rewrite lookup_insert in Hk. case_decide.
    + injection Hk as <-. vm_compute in He. discriminate.
    + rewrite lookup_empty in Hk. discriminate.
Defined.

(** X7. Where emails are distinct, a login with the email of a stored
    user, in any letter case and with blanks around it, and a password
    that checks against the stored hash, opens a session for that user:
    the session holds the user's id and role, the tables are unchanged,
    and (the id not being 0) that user is the current user afterwards. *)
Theorem login_opens_session check w rq k u :
  method rq = POST ->
  emails_unique (db w) ->
  users (db w) !! k = Some u ->
  email u = PyStr.lower (PyStr.strip (form_get rq "email" "")) ->
  check (password_hash u) (form_get rq "password" "") = true ->
  k <> 0 ->
  let w' := {| db := db w;
               session := {| user_id := Some k;
                             session_role := Some (role u) |} |} in
  login check w rq
  = Returned (Redirect "index") [("Logged in.", "success")] w' /\
  current_user w' = Some (k, u).
Proof.
  intros Hm Hu Hk He Hc Hk0 w'. split.
  - unfold login. rewrite Hm, <- He.
    rewrite (user_by_email_only (users (db w)) k u Hk).
    + rewrite Hc. reflexivity.
    + intros j v Hj Hjv. exact (Hu j k v u Hj Hk Hjv).
  - unfold current_user. cbn.
    destruct (Z.eqb_spec k 0); [done|]. rewrite Hk. reflexivity.
Qed.

Lemma rosa_world_users :
  users (db Ex2.rosa_world) = <[3 := Ex2.rosa]> (Ex.people 10).
Proof. vm_compute. reflexivity. Qed.

Lemma rosa_world_emails_unique : emails_unique (db Ex2.rosa_world).
Proof.
  intros i j u v Hi Hj He. rewrite rosa_world_users in Hi, Hj.
  unfold Ex.people in Hi, Hj.
  repeat (rewrite lookup_insert in Hi; case_decide);
    rewrite ?lookup_empty in Hi; try discriminate;
    repeat (rewrite lookup_insert in Hj; case_decide);
    rewrite ?lookup_empty in Hj; try discriminate;
    injection Hi as <-; injection Hj as <-; subst; try reflexivity;
    vm_compute in He; discriminate.
Qed.

Lemma login_opens_session_witness :
  login Ex2.check (world_after Ex2.rosa_world (logout Ex2.rosa_world))
    Ex2.hr_login
  = Returned (Redirect "index") [("Logged in.", "success")] Ex2.rosa_world.
Proof.
  refine (proj1 (login_opens_session Ex2.check
                   (world_after Ex2.rosa_world (logout Ex2.rosa_world))
                   Ex2.hr_login 3 Ex2.rosa eq_refl
                   rosa_world_emails_unique eq_refl eq_refl eq_refl _)).
  lia.
Defined.

(** X8. Registering, logging out and logging in again with the same
    email (up to case and surrounding blanks) and password gives back the
    session that the registration opened, provided the password check
    accepts a password against its own hash. *)
Theorem register_logout_login hash check sch w rq rq' r w1 :
  (forall p, check (hash p) p = true) ->
  register hash sch w rq
  = Returned r [("Registered and logged in.", "success")] w1 ->
  method rq' = POST ->
  PyStr.lower (PyStr.strip (form_get rq' "email" ""))
  = PyStr.lower (PyStr.strip (form_get rq "email" "")) ->
  form_get rq' "password" "" = form_get rq "password" "" ->
  current_user (world_after w1 (logout w1)) = None /\
  login check (world_after w1 (logout w1)) rq'
  = Returned (Redirect "index") [("Logged in.", "success")] w1.
Proof.
  intros Hcheck Hreg Hm He Hp. split; [reflexivity|].
  destruct (method rq) eqn:Hmr.
  { unfold register in Hreg. rewrite Hmr in Hreg. discriminate. }
  rewrite (register_post hash sch w rq Hmr) in Hreg. cbv zeta in Hreg.
  destruct (_ || _); [discriminate|].
  destruct (email_registered _ _) eqn:Hfree; [discriminate|].
  destruct (role_accepted _ _); [|discriminate].
  injection Hreg as _ <-.
  set (u := {| name := PyStr.strip (form_get rq "name" "");
               email := PyStr.lower (PyStr.strip (form_get rq "email" ""));
               password_hash := hash (form_get rq "password" "");
               role := form_get rq "role" "employee";
               leave_balance := default_leave_balance sch |}).
  unfold login. rewrite Hm, He, Hp. cbn [logout world_after db users].
  change (PyStr.lower (PyStr.strip (form_get rq "email" ""))) with (email u).
  rewrite (user_by_email_only _ (next_id (users (db w))) u).
  - cbn. rewrite Hcheck. reflexivity.
  - apply lookup_insert_eq.
  - intros j v Hj Hjv. rewrite lookup_insert in Hj. case_decide; [done|].
    exfalso. rewrite email_registered_false in Hfree. eapply Hfree; eauto.
Qed.

Lemma register_logout_login_witness :
  login Ex2.check (world_after Ex2.rosa_world (logout Ex2.rosa_world))
    Ex2.hr_login
  = Returned (Redirect "index") [("Logged in.", "success")] Ex2.rosa_world.
Proof.
  refine (proj2 (register_logout_login Ex.hash Ex2.check Ex.schema
                   (Ex.fresh_world Ex.anonymous 10) Ex2.hr_form Ex2.hr_login
                   (Redirect "index") Ex2.rosa_world _ eq_refl eq_refl
                   eq_refl eq_refl)).
  intros p. unfold Ex2.check. apply String.eqb_refl.
Defined.

(** X9. After a logout nobody is the current user, the tables are as
    before, and every protected handler refuses: submission and the two
    dashboards answer access denied, a review answers 403, and the account
    page sends to the login. *)
Theorem logout_closes_session parse now w rq leave_id :
  let w' := world_after w (logout w) in
  db w' = db w /\
  current_user w' = None /\
  apply_leave parse now w' rq = access_denied w' /\
  review_leave now w' rq leave_id
  = Returned (Json "error" "Access denied" 403) [] w' /\
  employee_dashboard w' = access_denied w' /\
  hr_dashboard w' = access_denied w' /\
  account w'
  = Returned (Redirect "login") [("Please login.", "warning")] w'.
Proof. cbv zeta. repeat split. Qed.

(** ** More on submission *)

(** X10. The two gates of the workflow: a submission that is not answered
    with access denied comes from a logged-in user whose role is
    [employee], a review that is not answered with the 403 comes from one
    whose role is [hr]; so in any one session at least one of the two is
    refused, and nobody reviews in the session they submit in. *)
Theorem role_gates parse now w rq rq2 leave_id :
  (apply_leave parse now w rq <> access_denied w ->
   exists uid, acting_as w uid "employee") /\
  (review_leave now w rq2 leave_id
   <> Returned (Json "error" "Access denied" 403) [] w ->
   exists uid, acting_as w uid "hr") /\
  (apply_leave parse now w rq = access_denied w \/
   review_leave now w rq2 leave_id
   = Returned (Json "error" "Access denied" 403) [] w).
Proof.
  unfold apply_leave, review_leave, acting_as.
  destruct (current_user w) as [[uid u]|]; [|repeat split; try done; by left].
  destruct (String.eqb_spec (role u) "employee") as [He|He];
    destruct (String.eqb_spec (role u) "hr") as [Hh|Hh]; cbn [negb].
  - congruence.
  - repeat split; try done; eauto.
  - repeat split; try done; eauto.
  - repeat split; try done. by left.
Qed.

(** X11. A submission by an employee whose dates parse and whose day count
    does not exceed the balance (equality included) is accepted: exactly
    one request is added, under a new id, Pending, with the caller as
    employee, the form's dates as sent, the computed days, the leave type
    (Vacation when the form has none), the stripped reason, the time of
    the submission and no review stamps; the stored requests and all users
    are as before. *)
Theorem submit_stores_pending_request parse now w rq uid u n :
  acting_as w uid "employee" ->
  method rq = POST ->
  users (db w) !! uid = Some u ->
  calc_days parse (form rq !! "start_date") (form rq !! "end_date") = Some n ->
  n <= leave_balance u ->
  let new := {| employee_id := uid; start_date := form rq !! "start_date";
                end_date := form rq !! "end_date"; days := n;
                leave_type := form_get rq "leave_type" "Vacation";
                reason := PyStr.strip (form_get rq "reason" "");
                status := Pending; applied_at := now;
                reviewed_by := None; reviewed_at := None;
                review_comment := None |} in
  let new_id := next_id (leaves (db w)) in
  exists w',
    apply_leave parse now w rq
    = Returned (Redirect "employee_dashboard")
        [("Leave application submitted.", "success")] w' /\
    leaves (db w) !! new_id = None /\
    leaves (db w') = <[new_id := new]> (leaves (db w)) /\
    (forall i l, leaves (db w) !! i = Some l -> leaves (db w') !! i = Some l) /\
    users (db w') = users (db w) /\
    session w' = session w.
Proof.
  intros Hemp Hm Hu Hd Hb new new_id. unfold apply_leave.
  caller Hemp. rewrite Hm, Hd, Hu.
  destruct (Z.gtb_spec n (leave_balance u)); [lia|].
  eexists. split; [reflexivity|]. cbn.
  pose proof (next_id_fresh (leaves (db w))) as Hfresh.
  repeat split; try assumption.
  intros i l Hi. rewrite lookup_insert_ne; [exact Hi|]. congruence.
Qed.

Lemma submit_stores_pending_request_witness :
  exists w',
    apply_leave Iso.parse "2024-02-20T09:00:00"
      (Ex.fresh_world (Ex.logged_in 2 "employee") 5)
      (Ex.leave_form "2024-03-01" "2024-03-05")
    = Returned (Redirect "employee_dashboard")
        [("Leave application submitted.", "success")] w' /\
    (days <$> leaves (db w') !! 1) = Some 5.
Proof.
  destruct (submit_stores_pending_request Iso.parse "2024-02-20T09:00:00"
              (Ex.fresh_world (Ex.logged_in 2 "employee") 5)
              (Ex.leave_form "2024-03-01" "2024-03-05") 2 (Ex.employee 5) 5
              (ex_intro _ (Ex.employee 5) (conj eq_refl eq_refl))
              eq_refl eq_refl eq_refl ltac:(cbn; lia))
    as (w' & Ho & _ & Hl & _).
  exists w'. split; [exact Ho|]. rewrite Hl. reflexivity.
Defined.

(** X12. An accepted submission shows where it should: the new request is
    added to the rows of its employee's dashboard and, joined with the
    employee, to the reviewers' pending rows, while the rows of every other
    employee's dashboard are the same as before. *)
Theorem submission_is_listed parse now w rq w' uid u :
  apply_leave parse now w rq
  = Returned (Redirect "employee_dashboard")
      [("Leave application submitted.", "success")] w' ->
  current_user w = Some (uid, u) ->
  exists l,
    leaves (db w') !! next_id (leaves (db w)) = Some l /\
    employee_leaves (db w') uid
    = <[next_id (leaves (db w)) := l]> (employee_leaves (db w) uid) /\
    pending_leaves (db w') !! next_id (leaves (db w)) = Some (l, u) /\
    (forall other, other <> uid ->
       employee_leaves (db w') other = employee_leaves (db w) other).
Proof.
  intros Ho Hc. pose proof (current_user_lookup w uid u Hc) as Hu.
  revert Ho. unfold apply_leave, access_denied. rewrite Hc.
  destruct (negb _); [discriminate|]. destruct (method rq); [discriminate|].
  destruct (calc_days _ _ _) as [n|]; [|discriminate].
  rewrite Hu. destruct (n >? _); [discriminate|].
  intros [= <-]. cbn.
  pose proof (next_id_fresh (leaves (db w))) as Hfresh.
  eexists. split; [apply lookup_insert_eq|]. split; [|split].
  - unfold employee_leaves. cbn. by rewrite map_filter_insert_True.
  - unfold pending_leaves. cbn.
    rewrite lookup_omap, lookup_insert_eq. cbn. rewrite Hu. reflexivity.
  - intros other Hne. unfold employee_leaves. cbn.
    rewrite map_filter_insert_False by (cbn; congruence).
    rewrite delete_id by exact Hfresh. reflexivity.
Qed.

Lemma submission_is_listed_witness :
  exists l,
    pending_leaves
      (db (world_after (Ex.fresh_world (Ex.logged_in 2 "employee") 5)
             (apply_leave Iso.parse "2024-02-20T09:00:00"
                (Ex.fresh_world (Ex.logged_in 2 "employee") 5)
                (Ex.leave_form "2024-03-01" "2024-03-05")))) !! 1
    = Some (l, Ex.employee 5).
Proof.
  destruct (submission_is_listed Iso.parse "2024-02-20T09:00:00"
              (Ex.fresh_world (Ex.logged_in 2 "employee") 5)
              (Ex.leave_form "2024-03-01" "2024-03-05") _ 2 (Ex.employee 5)
              eq_refl eq_refl)
    as (l & _ & _ & Hp & _).
  exists l. exact Hp.
Defined.

(** X13. A submission in which [start_date] or [end_date] is missing from
    the form is answered like one with unreadable dates: the invalid-date
    message, and nothing stored. *)
Theorem submit_without_dates parse now w rq uid :
  acting_as w uid "employee" ->
  method rq = POST ->
  form rq !! "start_date" = None \/ form rq !! "end_date" = None ->
  apply_leave parse now w rq
  = Returned (Redirect "apply_leave")
      [("Invalid date format. Use YYYY-MM-DD.", "danger")] w.
Proof.
  intros Hemp Hm H. unfold apply_leave. caller Hemp. rewrite Hm.
  assert (Hd : calc_days parse (form rq !! "start_date")
                 (form rq !! "end_date") = None).
  { unfold calc_days. destruct H as [-> | ->]; [reflexivity|].
    destruct (form rq !! "start_date") as [s|]; [|reflexivity].
    destruct (parse s); reflexivity. }
  rewrite Hd. reflexivity.
Qed.

Lemma submit_without_dates_witness :
  apply_leave Iso.parse "2024-02-20T09:00:00"
    (Ex.fresh_world (Ex.logged_in 2 "employee") 5)
    (Ex.post [("start_date", "2024-03-01")])
  = Returned (Redirect "apply_leave")
      [("Invalid date format. Use YYYY-MM-DD.", "danger")]
      (Ex.fresh_world (Ex.logged_in 2 "employee") 5).
Proof.
  apply (submit_without_dates Iso.parse "2024-02-20T09:00:00"
           (Ex.fresh_world (Ex.logged_in 2 "employee") 5)
           (Ex.post [("start_date", "2024-03-01")]) 2
           (ex_intro _ (Ex.employee 5) (conj eq_refl eq_refl)) eq_refl).
  right. reflexivity.
Defined.

(** X14. A submission never raises: the row of the caller that is read a
    second time is always there, so every call returns a response, and it
    changes neither the session nor any user. *)
Theorem submit_always_returns parse now w rq :
  exists r fl w',
    apply_leave parse now w rq = Returned r fl w' /\
    session w' = session w /\ users (db w') = users (db w).
Proof.
  unfold apply_leave, access_denied.
  destruct (current_user w) as [[uid u]|] eqn:Hc; [|eauto 6].
  apply current_user_lookup in Hc.
  destruct (negb _); [eauto 6|]. destruct (method rq); [eauto 6|].
  destruct (calc_days _ _ _) as [n|]; [|eauto 6].
  rewrite Hc. destruct (n >? _); eauto 6.
Qed.

(** ** More on review *)

(** X15. A review by a reviewer that names no stored request is answered
    with the not-found message, whatever the action is, when the id fits
    64 bits, and raises OverflowError when it does not; one that names a
    stored request with an action other than approve and reject, or with
    none, is answered with the unknown-action message.  None of the three
    writes anything. *)
Theorem review_without_effect now w rq leave_id uid :
  acting_as w uid "hr" ->
  (leaves (db w) !! leave_id = None -> sqlite_int leave_id = true ->
   review_leave now w rq leave_id
   = Returned (Redirect "hr_dashboard") [("Leave not found.", "danger")] w) /\
  (leaves (db w) !! leave_id = None -> sqlite_int leave_id = false ->
   review_leave now w rq leave_id = Raised OverflowError) /\
  (is_Some (leaves (db w) !! leave_id) ->
   form rq !! "action" <> Some "approve" ->
   form rq !! "action" <> Some "reject" ->
   review_leave now w rq leave_id
   = Returned (Redirect "hr_dashboard") [("Unknown action.", "warning")] w).
Proof.
  intros Hhr. split; [|split].
  - intros Hl Hi. unfold review_leave. caller Hhr. rewrite Hl, Hi. reflexivity.
  - intros Hl Hi. unfold review_leave. caller Hhr. rewrite Hl, Hi. reflexivity.
  - intros [l Hl] Ha Hr. unfold review_leave. caller Hhr. rewrite Hl.
    rewrite !bool_decide_eq_false_2 by assumption. reflexivity.
Qed.

Lemma review_without_effect_witness :
  review_leave "2024-02-21T10:00:00"
    (Ex.world (Ex.logged_in 1 "hr") 10 Pending 5) Ex.approve 7
  = Returned (Redirect "hr_dashboard") [("Leave not found.", "danger")]
      (Ex.world (Ex.logged_in 1 "hr") 10 Pending 5) /\
  review_leave "2024-02-21T10:00:00"
    (Ex.world (Ex.logged_in 1 "hr") 10 Pending 5) Ex.approve (2 ^ 63)
  = Raised OverflowError.
Proof.
  destruct (review_without_effect "2024-02-21T10:00:00"
              (Ex.world (Ex.logged_in 1 "hr") 10 Pending 5) Ex.approve 7 1
              (ex_intro _ Ex.hr_user (conj eq_refl eq_refl))) as (H1 & _).
  destruct (review_without_effect "2024-02-21T10:00:00"
              (Ex.world (Ex.logged_in 1 "hr") 10 Pending 5) Ex.approve
              (2 ^ 63) 1
              (ex_intro _ Ex.hr_user (conj eq_refl eq_refl))) as (_ & H2 & _).
  split; [apply H1; reflexivity | apply H2; reflexivity].
Defined.

(** X16. A reject by a reviewer of a stored request, whatever its status,
    sets the status to Rejected and stamps reviewer, time and stripped
    comment; the other columns of the request, every other request, every
    user (so every balance) and the session stay as they were. *)
Theorem reject_stamps_only now w rq leave_id uid l :
  acting_as w uid "hr" ->
  form rq !! "action" = Some "reject" ->
  leaves (db w) !! leave_id = Some l ->
  exists w' l',
    review_leave now w rq leave_id
    = Returned (Redirect "hr_dashboard") [("Leave rejected.", "info")] w' /\
    leaves (db w') !! leave_id = Some l' /\
    status l' = Rejected /\ reviewed_by l' = Some uid /\
    reviewed_at l' = Some now /\
    review_comment l' = Some (PyStr.strip (form_get rq "comment" "")) /\
    same_request l l' /\
    (forall i, i <> leave_id -> leaves (db w') !! i = leaves (db w) !! i) /\
    users (db w') = users (db w) /\
    session w' = session w.
Proof.
  intros Hhr Ha Hl.
  rewrite (review_reject_ok now w rq leave_id uid l Hhr Ha Hl).
  do 2 eexists. split; [reflexivity|]. cbn.
  split; [apply lookup_insert_eq|]. unfold same_request. cbn.
  repeat split. intros i Hi. by rewrite lookup_insert_ne.
Qed.

Lemma reject_stamps_only_witness :
  exists w' l',
    review_leave "2024-02-23T08:00:00"
      (Ex.world (Ex.logged_in 1 "hr") 10 Pending 5) Ex.reject 1
    = Returned (Redirect "hr_dashboard") [("Leave rejected.", "info")] w' /\
    leaves (db w') !! 1 = Some l' /\ status l' = Rejected /\
    users (db w') = Ex.people 10.
Proof.
  destruct (reject_stamps_only "2024-02-23T08:00:00"
              (Ex.world (Ex.logged_in 1 "hr") 10 Pending 5) Ex.reject 1 1
              (Ex.request_of Pending 5)
              (ex_intro _ Ex.hr_user (conj eq_refl eq_refl)) eq_refl eq_refl)
    as (w' & l' & Ho & Hl & Hs & _ & _ & _ & _ & _ & Hu & _).
  exists w', l'. repeat split; assumption.
Defined.

(** X17. Where every request belongs to a user of the table, a review
    returns a response, with the session as it was, for every caller, every
    form and every request id that fits 64 bits; and the only way it
    raises is the OverflowError of a reviewer's request for an id that
    does not fit and so is the id of no row. *)
Theorem review_returns_when_consistent now w rq leave_id :
  employees_exist (db w) ->
  (sqlite_int leave_id = true ->
   exists r fl w',
     review_leave now w rq leave_id = Returned r fl w' /\
     session w' = session w) /\
  (forall e, review_leave now w rq leave_id = Raised e ->
     e = OverflowError /\ sqlite_int leave_id = false /\
     leaves (db w) !! leave_id = None /\
     exists uid, acting_as w uid "hr").
Proof.
  intros Hex. unfold review_leave, acting_as.
  destruct (current_user w) as [[uid u]|]; [|split; [eauto 6|discriminate]].
  destruct (String.eqb_spec (role u) "hr") as [Hr|Hr]; cbn [negb];
    [|split; [eauto 6|discriminate]].
  destruct (leaves (db w) !! leave_id) as [l|] eqn:Hl.
  - destruct (bool_decide (form rq !! "action" = Some "approve")).
    + destruct (Hex leave_id l Hl) as [emp ->].
      destruct (_ <? _); (split; [eauto 6|discriminate]).
    + destruct (bool_decide _); (split; [eauto 6|discriminate]).
  - destruct (sqlite_int leave_id); split; try discriminate; eauto 6.
    intros e [= <-]. eauto 8.
Qed.

Lemma review_returns_when_consistent_witness :
  exists r fl w',
    review_leave "2024-02-21T10:00:00"
      (Ex.world (Ex.logged_in 1 "hr") 10 Pending 5) Ex.approve 1
    = Returned r fl w' /\
    session w' = Ex.logged_in 1 "hr".
Proof.
  refine (proj1 (review_returns_when_consistent "2024-02-21T10:00:00"
                   (Ex.world (Ex.logged_in 1 "hr") 10 Pending 5) Ex.approve 1
                   _) eq_refl).
  unfold employees_exist. apply (bool_decide_unpack _). vm_compute. exact I.
Defined.

(** The pending rows after a review: the reviewed request is gone from
    them when the review was carried out, and no review adds a row. *)
Lemma pending_lookup d i l u :
  pending_leaves d !! i = Some (l, u) <->
  leaves d !! i = Some l /\ status l = Pending /\
  users d !! employee_id l = Some u.
Proof.
  unfold pending_leaves. rewrite lookup_omap. split.
  - destruct (leaves d !! i) as [l0|]; cbn; [|done].
    destruct (status l0) eqn:Hs; try done.
    destruct (users d !! employee_id l0) eqn:Hu; [|done].
    intros [= <- <-]. auto.
  - intros (-> & Hs & Hu). cbn. rewrite Hs, Hu. reflexivity.
Qed.

Lemma pending_after_stamp st uid now c us d leave_id l :
  st <> Pending ->
  leaves d !! leave_id = Some l ->
  (forall k, is_Some (us !! k) -> is_Some (users d !! k)) ->
  let d' := {| users := us;
               leaves := alter (stamp st uid now c) leave_id (leaves d) |} in
  pending_leaves d' !! leave_id = None /\
  (forall i, is_Some (pending_leaves d' !! i) ->
             is_Some (pending_leaves d !! i)).
Proof.
  intros Hst Hl Hus d'. split.
  - unfold pending_leaves, d'. cbn. rewrite lookup_omap, lookup_alter_eq, Hl.
    cbn. destruct st; done.
  - intros i [[l' u'] H]. apply pending_lookup in H as (Hi & Hs & Hu).
    unfold d' in Hi, Hu. cbn in Hi, Hu.
    destruct (decide (leave_id = i)) as [<-|Hne].
    + rewrite lookup_alter_eq, Hl in Hi. injection Hi as <-.
      cbn in Hs. congruence.
    + rewrite lookup_alter_ne in Hi by done.
      destruct (Hus (employee_id l') (mk_is_Some _ _ Hu)) as [u0 Hu0].
      exists (l', u0). apply pending_lookup. auto.
Qed.

(** X18. A review that was carried out, as an approval or as a rejection,
    takes its request out of the reviewers' pending rows; and no review,
    carried out or not, puts a request into them. *)
Theorem review_empties_pending now w rq leave_id :
  let o := review_leave now w rq leave_id in
  let w' := world_after w o in
  (is_approval o \/ is_rejection o ->
   pending_leaves (db w') !! leave_id = None) /\
  (forall i, is_Some (pending_leaves (db w') !! i) ->
             is_Some (pending_leaves (db w) !! i)).
Proof.
  cbv zeta. unfold is_approval, is_rejection, review_leave.
  destruct (current_user w) as [[uid u]|];
    [|split; [intros [[? ?]|[? ?]]; discriminate|done]].
  destruct (negb _); [split; [intros [[? ?]|[? ?]]; discriminate|done]|].
  destruct (leaves (db w) !! leave_id) as [l|] eqn:Hl;
    [|destruct (sqlite_int leave_id);
      (split; [intros [[? ?]|[? ?]]; discriminate|done])].
  destruct (bool_decide (form rq !! "action" = Some "approve")).
  - destruct (users (db w) !! employee_id l) as [emp|] eqn:He;
      [|split; [intros [[? ?]|[? ?]]; discriminate|done]].
    destruct (_ <? _); [split; [intros [[? ?]|[? ?]]; discriminate|done]|].
    cbn [world_after db].
    destruct (pending_after_stamp Approved uid now
                (PyStr.strip (form_get rq "comment" ""))
                (alter (debit (days l)) (employee_id l) (users (db w)))
                (db w) leave_id l) as [H1 H2]; [done|exact Hl| |by split].
    intros k [x Hx]. destruct (decide (employee_id l = k)) as [<-|Hne].
    + eauto.
    + rewrite lookup_alter_ne in Hx by done. eauto.
  - destruct (bool_decide _).
    + cbn [world_after db].
      destruct (pending_after_stamp Rejected uid now
                  (PyStr.strip (form_get rq "comment" ""))
                  (users (db w)) (db w) leave_id l) as [H1 H2];
        [done|exact Hl|done|by split].
    + split; [intros [[? ?]|[? ?]]; discriminate|done].
Qed.

(** ** What a run of operations keeps *)

Lemma same_request_refl l : same_request l l.
Proof. unfold same_request. auto 8. Qed.

Lemma same_request_trans a b c :
  same_request a b -> same_request b c -> same_request a c.
Proof. unfold same_request. intuition congruence. Qed.

Lemma same_request_stamp st by_id t c l : same_request l (stamp st by_id t c l).
Proof. unfold same_request. cbn. auto 8. Qed.

Lemma same_person_refl u : same_person u u.
Proof. unfold same_person. auto. Qed.

Lemma same_person_trans a b c :
  same_person a b -> same_person b c -> same_person a c.
Proof. unfold same_person. intuition congruence. Qed.

(** One operation on one stored request: it stays, with its write-once
    columns, and it does not go back to Pending. *)
Lemma step_keeps_request parse op d i l :
  leaves d !! i = Some l ->
  exists l', leaves (step parse op d) !! i = Some l' /\
             same_request l l' /\
             (status l <> Pending -> status l' <> Pending).
Proof.
  intros Hi.
  assert (Hsame : exists l', leaves d !! i = Some l' /\ same_request l l' /\
                             (status l <> Pending -> status l' <> Pending))
    by (exists l; auto using same_request_refl).
  destruct op as [s now rq | s now rq leave_id | s leave_id]; cbn.
  - unfold apply_leave, access_denied.
    destruct (current_user _) as [[uid user]|]; [|exact Hsame].
    destruct (negb _); [exact Hsame|]. destruct (method rq); [exact Hsame|].
    destruct (calc_days _ _ _) as [n|]; [|exact Hsame]. cbn.
    destruct (users d !! uid); [|exact Hsame].
    destruct (n >? _); [exact Hsame|]. cbn.
    exists l. rewrite lookup_insert_ne; [auto using same_request_refl|].
    pose proof (next_id_fresh (leaves d)). congruence.
  - unfold review_leave.
    destruct (current_user _) as [[uid user]|]; [|exact Hsame].
    destruct (negb _); [exact Hsame|]. cbn.
    destruct (leaves d !! leave_id) as [l0|] eqn:Hl; [|destruct (sqlite_int _); exact Hsame].
    assert (Halt : forall st c, st <> Pending ->
              exists l', alter (stamp st uid now c) leave_id (leaves d) !! i
                         = Some l' /\ same_request l l' /\
                         (status l <> Pending -> status l' <> Pending)).
    { intros st c Hst. destruct (decide (leave_id = i)) as [<-|Hne].
      - rewrite lookup_alter_eq, Hi. cbn. eexists. split; [reflexivity|].
        split; [apply same_request_stamp|]. cbn. auto.
      - rewrite lookup_alter_ne by done. exact Hsame. }
    destruct (bool_decide (form rq !! "action" = Some "approve")).
    + destruct (users d !! employee_id l0); [|exact Hsame].
      destruct (_ <? _); [exact Hsame|]. cbn. by apply Halt.
    + destruct (bool_decide _); [|exact Hsame]. cbn. by apply Halt.
  - rewrite view_leave_world. exact Hsame.
Qed.

(** X19. Over any run of submissions, reviews and views, a stored request
    is never deleted and its employee, dates, days, leave type, reason and
    time of application never change, whatever reviews it receives. *)
Theorem requests_are_write_once parse ops d i l :
  leaves d !! i = Some l ->
  exists l', leaves (run_all parse ops d) !! i = Some l' /\ same_request l l'.
Proof.
  revert d l. induction ops as [|op ops IH]; intros d l Hi; cbn.
  - exists l. auto using same_request_refl.
  - destruct (step_keeps_request parse op d i l Hi) as (l1 & H1 & Hs1 & _).
    destruct (IH _ _ H1) as (l2 & H2 & Hs2).
    exists l2. eauto using same_request_trans.
Qed.

Lemma requests_are_write_once_witness :
  exists l',
    leaves (run_all Iso.parse
              [Review Scenario.hr "2024-02-21T10:00:00" Ex.approve 1;
               Review Scenario.hr "2024-02-23T08:00:00" Ex.reject 1]
              Scenario.pending) !! 1 = Some l' /\
    same_request (Ex.request_of Pending 5) l'.
Proof.
  apply (requests_are_write_once Iso.parse
           [Review Scenario.hr "2024-02-21T10:00:00" Ex.approve 1;
            Review Scenario.hr "2024-02-23T08:00:00" Ex.reject 1]
           Scenario.pending 1 (Ex.request_of Pending 5)).
  reflexivity.
Defined.

(** X20. Over any run of submissions, reviews and views, a request that
    has been reviewed never becomes Pending again: once its status is
    Approved or Rejected it is one of the two for good (it may still change
    from one to the other). *)
Theorem reviewed_stays_reviewed parse ops d i l :
  leaves d !! i = Some l ->
  status l <> Pending ->
  exists l', leaves (run_all parse ops d) !! i = Some l' /\
             status l' <> Pending.
Proof.
  revert d l. induction ops as [|op ops IH]; intros d l Hi Hs; cbn.
  - exists l. auto.
  - destruct (step_keeps_request parse op d i l Hi) as (l1 & H1 & _ & Hs1).
    exact (IH _ _ H1 (Hs1 Hs)).
Qed.

Lemma reviewed_stays_reviewed_witness :
  exists l',
    leaves (run_all Iso.parse
              [Review Scenario.hr "2024-02-23T08:00:00" Ex.reject 1;
               Submit Scenario.emp "2024-02-24T09:00:00"
                 (Ex.leave_form "2024-04-01" "2024-04-02")]
              (db Ex.approved_once)) !! 1 = Some l' /\
    status l' <> Pending.
Proof.
  apply (reviewed_stays_reviewed Iso.parse
           [Review Scenario.hr "2024-02-23T08:00:00" Ex.reject 1;
            Submit Scenario.emp "2024-02-24T09:00:00"
              (Ex.leave_form "2024-04-01" "2024-04-02")]
           (db Ex.approved_once) 1
           (stamp Approved 1 "2024-02-21T10:00:00" "ok"
              (Ex.request_of Pending 5))).
  - reflexivity.
  - discriminate.
Defined.

(** One operation on one user: the row stays, with its name, email, hash
    and role, and the balance does not grow. *)
Lemma step_keeps_user parse op d i u :
  days_nonneg d ->
  users d !! i = Some u ->
  exists u', users (step parse op d) !! i = Some u' /\
             same_person u u' /\ leave_balance u' <= leave_balance u.
Proof.
  intros Hd Hi.
  destruct (step_users parse op d)
    as [-> | (s & now & rq & leave_id & l & emp & _ & _ & Hl & He & _ & ->)].
  - exists u. split; [exact Hi|]. split; [apply same_person_refl|lia].
  - destruct (decide (employee_id l = i)) as [<-|Hne].
    + rewrite lookup_alter_eq, Hi. cbn. eexists. split; [reflexivity|].
      split; [unfold same_person; cbn; auto|].
      cbn. pose proof (Hd leave_id l Hl) as H0. cbn in H0. lia.
    + rewrite lookup_alter_ne by done.
      exists u. split; [exact Hi|]. split; [apply same_person_refl|lia].
Qed.

(** X21. Over any run of submissions, reviews and views from a state whose
    requests have at least 0 days, no user is removed, no user's name,
    email, password hash or role changes, and no balance ever grows: in
    particular rejecting a request that had been approved gives the
    debited days back to nobody. *)
Theorem balances_never_grow parse ops d i u :
  days_nonneg d ->
  users d !! i = Some u ->
  exists u', users (run_all parse ops d) !! i = Some u' /\
             same_person u u' /\ leave_balance u' <= leave_balance u.
Proof.
  revert d u. induction ops as [|op ops IH]; intros d u Hd Hi; cbn.
  - exists u. split; [exact Hi|]. split; [apply same_person_refl|lia].
  - destruct (step_keeps_user parse op d i u Hd Hi) as (u1 & H1 & Hp1 & Hb1).
    destruct (IH _ u1 (step_days parse op d Hd) H1) as (u2 & H2 & Hp2 & Hb2).
    exists u2. split; [exact H2|]. split; [eauto using same_person_trans|lia].
Qed.

Lemma balances_never_grow_witness :
  exists u',
    users (run_all Iso.parse
             [Review Scenario.hr "2024-02-21T10:00:00" Ex.approve 1;
              Review Scenario.hr "2024-02-23T08:00:00" Ex.reject 1]
             Scenario.pending) !! 2 = Some u' /\
    same_person (Ex.employee 10) u' /\ leave_balance u' <= 10.
Proof.
  apply (balances_never_grow Iso.parse
           [Review Scenario.hr "2024-02-21T10:00:00" Ex.approve 1;
            Review Scenario.hr "2024-02-23T08:00:00" Ex.reject 1]
           Scenario.pending 2 (Ex.employee 10)).
  - unfold days_nonneg. apply (bool_decide_unpack _). vm_compute. exact I.
  - reflexivity.
Defined.

(** ** More on viewing and the pages *)

(** X22. For a logged-in user and a stored request whose employee is in
    the table, [view_leave] shows the request exactly to reviewers and to
    the request's own employee; any other user gets access denied.  Nothing
    is written either way. *)
Theorem view_leave_access w leave_id l e uid u :
  leaves (db w) !! leave_id = Some l ->
  users (db w) !! employee_id l = Some e ->
  current_user w = Some (uid, u) ->
  (role u = "hr" \/ uid = employee_id l ->
   view_leave w leave_id = Returned (Render "view_leave.html") [] w) /\
  (role u <> "hr" -> uid <> employee_id l ->
   view_leave w leave_id = access_denied w).
Proof.
  intros Hl He Hc. unfold view_leave, leave_with_employee.
  rewrite Hl, He, Hc.
  destruct (String.eqb_spec (role u) "hr") as [Hr|Hr];
    destruct (Z.eqb_spec uid (employee_id l)) as [Hu|Hu]; cbn;
    split; try reflexivity; intros; try reflexivity; try tauto.
Qed.

Lemma view_leave_access_witness :
  view_leave (Ex.world (Ex.logged_in 2 "employee") 10 Pending 5) 1
  = Returned (Render "view_leave.html") []
      (Ex.world (Ex.logged_in 2 "employee") 10 Pending 5).
Proof.
  apply (proj1 (view_leave_access
                  (Ex.world (Ex.logged_in 2 "employee") 10 Pending 5) 1
                  (Ex.request_of Pending 5) (Ex.employee 10) 2
                  (Ex.employee 10) eq_refl eq_refl eq_refl)).
  right. reflexivity.
Defined.

(** X23. Asking for a request id that is not stored is answered with the
    not-found message for every caller, logged in or not, when the id fits
    64 bits: the look-up comes before the role of the caller is read, so
    the missing user does not make it raise.  When the id does not fit, the
    look-up itself raises OverflowError, again for every caller. *)
Theorem view_leave_unknown w leave_id :
  leaves (db w) !! leave_id = None ->
  (sqlite_int leave_id = true ->
   view_leave w leave_id
   = Returned (Redirect "index") [("Leave not found.", "danger")] w) /\
  (sqlite_int leave_id = false ->
   view_leave w leave_id = Raised OverflowError).
Proof.
  intros Hl. unfold view_leave, leave_with_employee. rewrite Hl.
  split; intros ->; reflexivity.
Qed.

Lemma view_leave_unknown_witness :
  view_leave (Ex.world Ex.anonymous 10 Pending 5) 9
  = Returned (Redirect "index") [("Leave not found.", "danger")]
      (Ex.world Ex.anonymous 10 Pending 5) /\
  view_leave (Ex.world Ex.anonymous 10 Pending 5) (2 ^ 63)
  = Raised OverflowError.
Proof.
  split.
  - apply (proj1 (view_leave_unknown (Ex.world Ex.anonymous 10 Pending 5) 9
                    eq_refl)). reflexivity.
  - apply (proj2 (view_leave_unknown (Ex.world Ex.anonymous 10 Pending 5)
                    (2 ^ 63) eq_refl)). reflexivity.
Defined.

(** X24. The pages by role: for a logged-in user the employee dashboard is
    rendered exactly when the role is [employee] and the reviewers'
    dashboard exactly when it is [hr], never both; a user with any other
    role is denied both, while the account page is rendered for every
    logged-in user. *)
Theorem pages_by_role w uid u :
  current_user w = Some (uid, u) ->
  (employee_dashboard w = Returned (Render "employee_dashboard.html") [] w
   <-> role u = "employee") /\
  (hr_dashboard w = Returned (Render "hr_dashboard.html") [] w
   <-> role u = "hr") /\
  (role u <> "employee" -> employee_dashboard w = access_denied w) /\
  (role u <> "hr" -> hr_dashboard w = access_denied w) /\
  account w = Returned (Render "account.html") [] w.
Proof.
  intros Hc. unfold employee_dashboard, hr_dashboard, account, access_denied.
  rewrite Hc.
  destruct (String.eqb_spec (role u) "employee") as [He|He];
    destruct (String.eqb_spec (role u) "hr") as [Hh|Hh]; cbn;
    repeat split; intros; try reflexivity; try congruence; try discriminate.
Qed.

Lemma pages_by_role_witness :
  hr_dashboard (Ex.fresh_world (Ex.logged_in 2 "employee") 10)
  = access_denied (Ex.fresh_world (Ex.logged_in 2 "employee") 10).
Proof.
  destruct (pages_by_role (Ex.fresh_world (Ex.logged_in 2 "employee") 10) 2
              (Ex.employee 10) eq_refl) as (_ & _ & _ & H & _).
  apply H. discriminate.
Defined.

(** ** More on the day count *)

Lemma date_order_total s e : PyDate.le s e \/ PyDate.lt e s.
Proof.
  destruct s as [ys ms ds], e as [ye me de]. unfold PyDate.le, PyDate.lt. cbn.
  destruct (Z.lt_trichotomy ys ye) as [H|[->|H]];
    [left; left; left; exact H | | right; left; exact H].
  destruct (Z.lt_trichotomy ms me) as [H1|[->|H1]];
    [left; left; right; auto | | right; right; auto].
  destruct (Z.lt_trichotomy ds de) as [H2|[->|H2]];
    [left; left; right; auto | left; right; reflexivity | right; right; auto].
Qed.

(** X25. For dates that parse, the day count tells the order of the two
    dates: it is 0 exactly when the end is before the start, at least 1
    exactly when the start is not after the end, and 1 exactly when the two
    are the same day. *)
Theorem calc_days_tells_order parse s_txt e_txt s e :
  parse s_txt = Some s -> parse e_txt = Some e ->
  PyDate.valid s -> PyDate.valid e ->
  exists n,
    calc_days parse (Some s_txt) (Some e_txt) = Some n /\
    (n = 0 <-> PyDate.lt e s) /\
    (1 <= n <-> PyDate.le s e) /\
    (n = 1 <-> s = e).
Proof.
  intros Hs He Vs Ve. unfold calc_days. rewrite Hs, He.
  eexists. split; [reflexivity|]. unfold PyDate.sub_days.
  destruct (date_order_total s e) as [Hle|Hlt].
  - pose proof (PyDateFacts.toordinal_le s e Vs Ve Hle) as Ho.
    assert (Hno : ~ PyDate.lt e s).
    { intros Hlt. pose proof (PyDateFacts.toordinal_lt e s Ve Vs Hlt). lia. }
    repeat split; intros; try lia; try tauto.
    + destruct Hle as [Hlt| ->]; [|reflexivity].
      pose proof (PyDateFacts.toordinal_lt s e Vs Ve Hlt). lia.
    + subst. lia.
  - pose proof (PyDateFacts.toordinal_lt e s Ve Vs Hlt) as Ho.
    assert (Hno : ~ PyDate.le s e).
    { intros Hle. pose proof (PyDateFacts.toordinal_le s e Vs Ve Hle). lia. }
    repeat split; intros; try lia; try tauto.
    + exfalso. apply Hno. right. assumption.
Qed.

Lemma calc_days_tells_order_witness :
  exists n,
    calc_days Iso.parse (Some "2024-02-28") (Some "2024-03-01") = Some n /\
    (1 <= n <->
     PyDate.le (PyDate.mkdate 2024 2 28) (PyDate.mkdate 2024 3 1)).
Proof.
  destruct (calc_days_tells_order Iso.parse "2024-02-28" "2024-03-01"
              (PyDate.mkdate 2024 2 28) (PyDate.mkdate 2024 3 1)
              eq_refl eq_refl)
    as (n & Hn & _ & H1 & _).
  - unfold PyDate.valid. repeat split; vm_compute; discriminate.
  - unfold PyDate.valid. repeat split; vm_compute; discriminate.
  - exists n. split; [exact Hn|exact H1].
Defined.

(** X26. A request from the first of January to the last of December of
    one year counts every day of that year: 366 days in a leap year, 365
    otherwise. *)
Theorem calc_days_whole_year parse s_txt e_txt y :
  parse s_txt = Some (PyDate.mkdate y 1 1) ->
  parse e_txt = Some (PyDate.mkdate y 12 31) ->
  calc_days parse (Some s_txt) (Some e_txt)
  = Some (if PyDate.is_leap y then 366 else 365).
Proof.
  intros Hs He. unfold calc_days. rewrite Hs, He.
  unfold PyDate.sub_days, PyDate.toordinal, PyDate.days_before_month. cbn.
  destruct (PyDate.is_leap y); f_equal; lia.
Qed.

Lemma calc_days_whole_year_witness :
  calc_days Iso.parse (Some "2024-01-01") (Some "2024-12-31") = Some 366 /\
  calc_days Iso.parse (Some "2023-01-01") (Some "2023-12-31") = Some 365.
Proof.
  split.
  - apply (calc_days_whole_year Iso.parse "2024-01-01" "2024-12-31" 2024
             eq_refl eq_refl).
  - apply (calc_days_whole_year Iso.parse "2023-01-01" "2023-12-31" 2023
             eq_refl eq_refl).
Defined.

(** ** The roles of the stored users *)

Lemma spec_role_valid r : spec_role r = true <-> valid_role r.
Proof.
  unfold spec_role, valid_role.
  destruct (String.eqb_spec r "employee"); destruct (String.eqb_spec r "hr");
    cbn; split; intros; try tauto; try discriminate.
Qed.

Lemma example_schema_follows_spec : follows_spec Ex.schema.
Proof. intros r. apply spec_role_valid. Qed.

(** Registration adds at most one user, and only one whose role the table
    accepts. *)
Lemma register_roles hash sch w rq :
  follows_spec sch ->
  roles_valid (db w) ->
  roles_valid (db (world_after w (register hash sch w rq))).
Proof.
  intros Hs Hv. destruct (method rq) eqn:Hm.
  - unfold register. rewrite Hm. exact Hv.
  - rewrite (register_post hash sch w rq Hm). cbv zeta.
    destruct (_ || _); [exact Hv|].
    destruct (email_registered _ _); [exact Hv|].
    destruct (role_accepted sch _) eqn:Hacc; [|exact Hv].
    unfold roles_valid. cbn. apply map_Forall_insert_2; [|exact Hv].
    cbn. apply Hs, Hacc.
Qed.

(** A form that asks for another role adds no user. *)
Lemma register_other_role hash sch w rq :
  follows_spec sch ->
  ~ valid_role (form_get rq "role" "employee") ->
  world_after w (register hash sch w rq) = w.
Proof.
  intros Hs Hno. destruct (method rq) eqn:Hm.
  - unfold register. rewrite Hm. reflexivity.
  - rewrite (register_post hash sch w rq Hm). cbv zeta.
    destruct (_ || _); [reflexivity|].
    destruct (email_registered _ _); [reflexivity|].
    destruct (role_accepted sch _) eqn:Hacc; [|reflexivity].
    exfalso. apply Hno, Hs, Hacc.
Qed.

Lemma step_roles parse op d : roles_valid d -> roles_valid (step parse op d).
Proof.
  intros Hv. unfold roles_valid.
  destruct (step_users parse op d)
    as [-> | (s & now & rq & leave_id & l & emp & _ & _ & _ & _ & _ & ->)];
    [exact Hv|].
  apply map_Forall_alter_row; [exact Hv|].
  intros x Hx. cbn. exact (Hv _ _ Hx).
Qed.

Lemma act_roles parse hash sch a d :
  follows_spec sch -> roles_valid d -> roles_valid (act parse hash sch a d).
Proof.
  intros Hs Hv. destruct a as [s rq | op]; cbn.
  - apply (register_roles hash sch (mkWorld d s) rq Hs Hv).
  - apply step_roles, Hv.
Qed.

(** C8. With a users table that holds the data model of the spec, so that
    its [role] column takes [employee] and [hr] and nothing else: from a
    state in which every stored user has one of the two roles (the empty
    table is one), every sequence of registrations, submissions, reviews
    and views leads to such a state; and a registration whose form asks
    for any other role stores no user and opens no session. *)
Theorem stored_roles_are_valid parse hash sch actions d :
  follows_spec sch ->
  roles_valid d ->
  roles_valid (act_all parse hash sch actions d) /\
  (forall w rq, ~ valid_role (form_get rq "role" "employee") ->
                world_after w (register hash sch w rq) = w).
Proof.
  intros Hs Hv. split.
  - revert d Hv. induction actions as [|a rest IH]; intros d Hv; cbn;
      [exact Hv|].
    apply IH, act_roles; assumption.
  - intros w rq Hno. apply register_other_role; assumption.
Qed.

Lemma stored_roles_are_valid_witness :
  roles_valid
    (act_all Iso.parse Ex.hash Ex.schema
       [Register Ex.anonymous Ex2.hr_form;
        Register Ex.anonymous Scenario.admin_form;
        Workflow (Review Scenario.hr "2024-02-21T10:00:00" Ex.approve 1)]
       Scenario.pending) /\
  world_after (Ex.fresh_world Ex.anonymous 10)
    (register Ex.hash Ex.schema (Ex.fresh_world Ex.anonymous 10)
       Scenario.admin_form)
  = Ex.fresh_world Ex.anonymous 10.
Proof.
  assert (Hv : roles_valid Scenario.pending).
  { unfold roles_valid, valid_role. apply (bool_decide_unpack _).
    vm_compute. exact I. }
  destruct (stored_roles_are_valid Iso.parse Ex.hash Ex.schema
              [Register Ex.anonymous Ex2.hr_form;
               Register Ex.anonymous Scenario.admin_form;
               Workflow (Review Scenario.hr "2024-02-21T10:00:00" Ex.approve 1)]
              Scenario.pending example_schema_follows_spec Hv) as [H1 H2].
  split; [exact H1|]. apply H2. vm_compute. intros [H|H]; discriminate.
Defined.

(** The registration that asks for the role [admin] is turned down by
    the table: the INSERT raises and nothing is stored. *)
Example register_admin_refused :
  register Ex.hash Ex.schema (Ex.fresh_world Ex.anonymous 10)
    Scenario.admin_form
  = Raised IntegrityError.
Proof. reflexivity. Qed.
